(** * verify_setup.py: the SetupVerifier check runner and its reporting

    A shallow embedding of [src/verify_setup.py].  The class [SetupVerifier]
    becomes a record, its methods become computations in a small monad that
    threads the verifier object and standard output and that can end in a
    raised Python exception.  Everything the script obtains from outside
    (interpreter version, [os.environ], [importlib], the filesystem, the
    network, the numeric libraries) is read from an explicit environment. *)

From Stdlib Require Import String List ZArith QArith Lia Bool Permutation DecimalString.
From stdpp Require Import gmap strings.
Import ListNotations.

Local Open Scope nat_scope.

(** ** Python exceptions *)

Module Py.

(** The part of the exception hierarchy the script distinguishes:
    [except ImportError], [except Exception], [except KeyboardInterrupt],
    and [sys.exit], which raises [SystemExit]. *)

(** Classes derived from [Exception]. *)
Inductive error : Type :=
| ImportError (msg : string)        (* ImportError, ModuleNotFoundError *)
| ZeroDivisionError (msg : string)
| OtherError (msg : string).        (* every other class derived from Exception *)

(** Classes derived from [BaseException]. *)
Inductive exn : Type :=
| Exception (e : error)
| KeyboardInterrupt
| SystemExit (code : Z)
| OtherBaseException (msg : string).

(** [isinstance(e, Exception)] *)
Definition is_Exception (e : exn) : bool :=
  match e with
  | Exception _ => true
  | KeyboardInterrupt | SystemExit _ | OtherBaseException _ => false
  end.

(** [isinstance(e, ImportError)] *)
Definition is_ImportError (e : exn) : bool :=
  match e with
  | Exception (ImportError _) => true
  | _ => false
  end.

(** [isinstance(e, KeyboardInterrupt)] *)
Definition is_KeyboardInterrupt (e : exn) : bool :=
  match e with
  | KeyboardInterrupt => true
  | _ => false
  end.

(** [str(n)] for an integer *)
Definition str_int (n : Z) : string := NilZero.string_of_int (Z.to_int n).

(** [str(e)], what an f-string inserts for [{e}] *)
Definition str (e : exn) : string :=
  match e with
  | Exception (ImportError m) | Exception (ZeroDivisionError m)
  | Exception (OtherError m) | OtherBaseException m => m
  | KeyboardInterrupt => EmptyString
  | SystemExit c => str_int c
  end.

(** What a call into code outside the script does: return or raise. *)
Inductive outcome (A : Type) : Type :=
| Returns (a : A)
| Raises (e : exn).
Arguments Returns {A} a.
Arguments Raises {A} e.

(** Truth value of a [str] or [None] result, as tested by [if result:]. *)
Definition truthy (r : option string) : bool :=
  match r with
  | Some s => negb (String.eqb s EmptyString)
  | None => false
  end.

End Py.
Import Py.

(** ** State *)

(** The attributes [__init__] creates. *)
Record SetupVerifier : Type := mkSetupVerifier {
  errors : list string;
  warnings : list string;
  success_count : nat;
  total_checks : nat
}.

(** [SetupVerifier()] *)
Definition init : SetupVerifier :=
  {| errors := []; warnings := []; success_count := 0; total_checks := 0 |}.

(** The verifier object together with the lines printed so far. *)
Record world : Type := mkWorld {
  self : SetupVerifier;
  stdout : list string
}.

Definition start : world := {| self := init; stdout := [] |}.

(** ** The monad of method bodies *)

Inductive result (A : Type) : Type :=
| Normal (a : A) (w : world)
| Raised (e : exn) (w : world).
Arguments Normal {A} a w.
Arguments Raised {A} e w.

Definition M (A : Type) : Type := world -> result A.

Definition ret {A} (a : A) : M A := fun w => Normal a w.

Definition bind {A B} (m : M A) (k : A -> M B) : M B :=
  fun w =>
    match m w with
    | Normal a w' => k a w'
    | Raised e w' => Raised e w'
    end.

Definition raise {A} (e : exn) : M A := fun w => Raised e w.

(** [try: body  except <class> as e: handler e]; an exception that is not an
    instance of the class passes through. *)
Definition try_except {A} (body : M A) (class : exn -> bool) (handler : exn -> M A) : M A :=
  fun w =>
    match body w with
    | Normal a w' => Normal a w'
    | Raised e w' => if class e then handler e w' else Raised e w'
    end.

(** A call whose outcome the environment decides. *)
Definition call {A} (o : outcome A) : M A :=
  match o with
  | Returns a => ret a
  | Raises e => raise e
  end.

Definition print (line : string) : M unit :=
  fun w => Normal tt {| self := self w; stdout := stdout w ++ [line] |}.

Definition get_self : M SetupVerifier := fun w => Normal (self w) w.

Definition set_self (f : SetupVerifier -> SetupVerifier) : M unit :=
  fun w => Normal tt {| self := f (self w); stdout := stdout w |}.

Declare Scope py_scope.
Delimit Scope py_scope with py.
Notation "x <- m ;; k" := (bind m (fun x => k))
  (at level 100, m at next level, right associativity) : py_scope.
Notation "m ;; k" := (bind m (fun _ => k))
  (at level 100, right associativity) : py_scope.
Local Open Scope py_scope.

(** [self.total_checks += 1] *)
Definition incr_total_checks : M unit :=
  set_self (fun v => {| errors := errors v; warnings := warnings v;
                        success_count := success_count v;
                        total_checks := total_checks v + 1 |}).

(** [self.success_count += 1] *)
Definition incr_success_count : M unit :=
  set_self (fun v => {| errors := errors v; warnings := warnings v;
                        success_count := success_count v + 1;
                        total_checks := total_checks v |}).

(** [self.errors.append(x)] *)
Definition errors_append (x : string) : M unit :=
  set_self (fun v => {| errors := errors v ++ [x]; warnings := warnings v;
                        success_count := success_count v;
                        total_checks := total_checks v |}).

(** [self.warnings.append(x)] *)
Definition warnings_append (x : string) : M unit :=
  set_self (fun v => {| errors := errors v; warnings := warnings v ++ [x];
                        success_count := success_count v;
                        total_checks := total_checks v |}).

(** ** The runner *)

(** [SetupVerifier.check_item].  The check function is any computation; the
    boolean it returns is the truth value of its result. *)
Definition check_item (description : string) (check_function : M bool) : M bool :=
  incr_total_checks ;;
  try_except
    (result <- check_function ;;
     if result : bool then
       print ("✅ " +:+ description) ;;
       incr_success_count ;;
       ret true
     else
       print ("❌ " +:+ description) ;;
       errors_append description ;;
       ret false)
    is_Exception
    (fun e =>
       print ("❌ " +:+ description +:+ " - Error: " +:+ str e) ;;
       errors_append (description +:+ " - " +:+ str e) ;;
       ret false).

(** [SetupVerifier.warn_item] *)
Definition warn_item (description : string) : M unit :=
  print ("⚠️  " +:+ description) ;;
  warnings_append description.

(** The three outcomes a check can be given in advance: it returns a true
    value, it returns a false value, or it raises an error. *)
Inductive fixed_outcome : Type :=
| passes
| fails
| raising (e : error).

(** A check with a fixed outcome: it prints nothing and leaves the verifier
    alone. *)
Definition fixed (o : fixed_outcome) : M bool :=
  match o with
  | passes => ret true
  | fails => ret false
  | raising e => raise (Exception e)
  end.

(** Calling [check_item] on each entry of a sequence, in order, the way
    [run_all_checks] does for its own entries; the results are collected. *)
Fixpoint check_items (checks : list (string * M bool)) : M (list bool) :=
  match checks with
  | [] => ret []
  | (description, check_function) :: rest =>
      b <- check_item description check_function ;;
      bs <- check_items rest ;;
      ret (b :: bs)
  end.

(** [total_checks == successes + len(errors)] *)
Definition counts_agree (v : SetupVerifier) : Prop :=
  total_checks v = success_count v + length (errors v).

(** ** The environment of a run *)

(** [sys.version_info] *)
Record version_info : Type := mkVersion {
  major : Z;
  minor : Z;
  micro : Z
}.

(** An imported module, as far as the script looks at it: the text of its
    [__version__] attribute when it has one. *)
Record module : Type := mkModule {
  dunder_version : option string
}.

(** Everything the script reads from outside itself.  The probes stand for
    the library calls in the body of a check, up to the value the check
    computes from them. *)
Record Env : Type := mkEnv {
  sys_version_info : version_info;
  os_environ : gmap string string;
  sys_has_real_prefix : bool;            (* hasattr(sys, 'real_prefix') *)
  sys_base_prefix : option string;       (* None: sys has no base_prefix *)
  sys_prefix : string;
  Path_name : string -> string;          (* Path(p).name *)
  import_module : string -> outcome module;
  write_and_unlink : outcome unit;       (* test_file.write_text, test_file.unlink *)
  mean_sum_is_number : outcome bool;     (* isinstance(result, ...) and not isnan(result) *)
  plot_offscreen : outcome unit;         (* subplots, plot, close *)
  requests_get_status : outcome Z;       (* requests.get(...).status_code *)
  simulated_accuracy : outcome Q;        (* (predictions == df['is_threat']).mean() *)
  format_percent2 : Q -> string;         (* f"{x:.2%}" *)
  format_fixed1 : Q -> string;           (* f"{x:.1f}" *)
  sys_executable : string;
  os_getcwd : outcome string;
  sys_platform : string
}.

(** ** Output helpers *)

Definition newline : string := String (Ascii.ascii_of_nat 10) EmptyString.

(** [s * n] on strings *)
Fixpoint str_mul (s : string) (n : nat) : string :=
  match n with
  | O => EmptyString
  | S n' => s +:+ str_mul s n'
  end.

(** [for x in xs: body x] *)
Fixpoint for_each {A} (xs : list A) (body : A -> M unit) : M unit :=
  match xs with
  | [] => ret tt
  | x :: rest => body x ;; for_each rest body
  end.

(** [SetupVerifier.print_header] *)
Definition print_header : M unit :=
  print (str_mul "=" 60) ;;
  print "🔐 AI SECURITY COURSE - SETUP VERIFICATION" ;;
  print (str_mul "=" 60) ;;
  print EmptyString.

(** [SetupVerifier.print_section] *)
Definition print_section (title : string) : M unit :=
  print (newline +:+ "📋 " +:+ title) ;;
  print (str_mul "-" 40).

(** ** The checks *)

(** [f"{version.major}.{version.minor}.{version.micro}"] *)
Definition version_text (version : version_info) : string :=
  str_int (major version) +:+ "." +:+ str_int (minor version) +:+ "." +:+
  str_int (micro version).

(** [SetupVerifier.check_python_version] *)
Definition check_python_version (env : Env) : M bool :=
  let version := sys_version_info env in
  if ((3 <=? major version)%Z && (10 <=? minor version)%Z)%bool then
    print ("✅ Python version: " +:+ version_text version) ;;
    ret true
  else
    print ("❌ Python version: " +:+ version_text version +:+ " (requires 3.10+)") ;;
    ret false.

(** The list [venv_indicators] of [check_virtual_environment]. *)
Definition venv_indicators (env : Env) : list bool :=
  [ bool_decide (is_Some (os_environ env !! "VIRTUAL_ENV"));
    bool_decide (is_Some (os_environ env !! "CONDA_DEFAULT_ENV"));
    sys_has_real_prefix env;
    match sys_base_prefix env with
    | Some base => negb (String.eqb base (sys_prefix env))
    | None => false
    end ].

(** [any(xs)] *)
Definition any (xs : list bool) : bool := existsb (fun x => x) xs.

(** [SetupVerifier.check_virtual_environment] *)
Definition check_virtual_environment (env : Env) : M bool :=
  if any (venv_indicators env) then
    let venv_name :=
      default (default "Unknown" (os_environ env !! "CONDA_DEFAULT_ENV"))
              (os_environ env !! "VIRTUAL_ENV") in
    let venv_name :=
      if negb (String.eqb venv_name "Unknown") then Path_name env venv_name
      else "Unknown" in
    print ("✅ Virtual environment active: " +:+ venv_name) ;;
    ret true
  else
    warn_item "Not running in virtual environment (recommended but not required)" ;;
    ret true.

(** [SetupVerifier.check_package_import]: [Some text] for the returned
    string, [None] for [None]. *)
Definition check_package_import (env : Env) (package_name : string) : M (option string) :=
  try_except
    (m <- call (import_module env package_name) ;;
     let version := default "Unknown" (dunder_version m) in
     ret (Some (package_name +:+ " v" +:+ version)))
    is_ImportError
    (fun _ => ret None).

(** The list [essential_packages] of [check_essential_packages]. *)
Definition essential_packages : list string :=
  ["numpy"; "pandas"; "matplotlib"; "requests"; "jupyter"].

(** The first loop of [check_essential_packages]: it sorts the names into
    [installed_packages] and [missing_packages], which it is given as they
    stand and returns as they end up. *)
Fixpoint probe_packages (env : Env) (packages missing installed : list string)
  : M (list string * list string) :=
  match packages with
  | [] => ret (missing, installed)
  | package :: rest =>
      result <- check_package_import env package ;;
      match result with
      | Some text =>
          if truthy result then probe_packages env rest missing (installed ++ [text])
          else probe_packages env rest (missing ++ [package]) installed
      | None => probe_packages env rest (missing ++ [package]) installed
      end
  end.

(** The body of [SetupVerifier.check_essential_packages], with the list of
    required names as a parameter. *)
Definition check_packages (env : Env) (packages : list string) : M bool :=
  lists <- probe_packages env packages [] [] ;;
  let missing_packages := fst lists in
  let installed_packages := snd lists in
  for_each installed_packages (fun pkg => print ("✅ " +:+ pkg)) ;;
  for_each missing_packages (fun pkg => print ("❌ " +:+ pkg +:+ " - Not installed")) ;;
  ret (length missing_packages =? 0).

(** [SetupVerifier.check_essential_packages] *)
Definition check_essential_packages (env : Env) : M bool :=
  check_packages env essential_packages.

(** [SetupVerifier.check_data_manipulation] *)
Definition check_data_manipulation (env : Env) : M bool :=
  try_except (call (mean_sum_is_number env)) is_Exception (fun _ => ret false).

(** [SetupVerifier.check_visualization] *)
Definition check_visualization (env : Env) : M bool :=
  try_except (call (plot_offscreen env) ;; ret true) is_Exception (fun _ => ret false).

(** [SetupVerifier.check_network_connectivity] *)
Definition check_network_connectivity (env : Env) : M bool :=
  try_except
    (status_code <- call (requests_get_status env) ;;
     ret (status_code =? 200)%Z)
    is_Exception
    (fun _ => ret false).

(** [SetupVerifier.check_file_permissions] *)
Definition check_file_permissions (env : Env) : M bool :=
  try_except (call (write_and_unlink env) ;; ret true) is_Exception (fun _ => ret false).

(** [SetupVerifier.run_security_simulation] *)
Definition run_security_simulation (env : Env) : M bool :=
  try_except
    (accuracy <- call (simulated_accuracy env) ;;
     print ("   Security simulation accuracy: " +:+ format_percent2 env accuracy) ;;
     ret (negb (Qle_bool accuracy (7 # 10))))
    is_Exception
    (fun e =>
       print ("   Simulation error: " +:+ str e) ;;
       ret false).

(** ** The summary *)

(** [a / b] on integers: true division, which raises on a zero divisor.
    The float it returns is modelled by the exact quotient. *)
Definition true_div (a b : nat) : M Q :=
  if b =? 0 then raise (Exception (ZeroDivisionError "division by zero"))
  else ret (inject_Z (Z.of_nat a) / inject_Z (Z.of_nat b))%Q.

Definition top_tier : string :=
  "🚀 EXCELLENT! Your setup is ready for the AI Security course!".
Definition middle_tier : string :=
  "👍 GOOD! Minor issues detected, but you should be able to proceed.".
Definition bottom_tier : string :=
  "⚠️  ATTENTION! Several issues detected. Please review and fix errors.".

(** The [if success_rate >= 90 / elif success_rate >= 75 / else] at the end
    of [print_summary]: the message it prints. *)
Definition verdict (success_rate : Q) : string :=
  if Qle_bool 90 success_rate then top_tier
  else if Qle_bool 75 success_rate then middle_tier
  else bottom_tier.

(** [SetupVerifier.print_summary] *)
Definition print_summary (env : Env) : M unit :=
  print (newline +:+ str_mul "=" 60) ;;
  print "📊 VERIFICATION SUMMARY" ;;
  print (str_mul "=" 60) ;;
  v <- get_self ;;
  quotient <- true_div (success_count v) (total_checks v) ;;
  let success_rate := (quotient * 100)%Q in
  print ("✅ Successful checks: " +:+ str_int (Z.of_nat (success_count v)) +:+ "/" +:+
         str_int (Z.of_nat (total_checks v)) +:+ " (" +:+
         format_fixed1 env success_rate +:+ "%)") ;;
  match warnings v with
  | [] => ret tt
  | _ :: _ =>
      print ("⚠️  Warnings: " +:+ str_int (Z.of_nat (length (warnings v)))) ;;
      for_each (warnings v) (fun warning => print ("   • " +:+ warning))
  end ;;
  match errors v with
  | _ :: _ =>
      print ("❌ Errors: " +:+ str_int (Z.of_nat (length (errors v)))) ;;
      for_each (errors v) (fun error => print ("   • " +:+ error))
  | [] => print "🎉 No errors found!"
  end ;;
  print (newline +:+ str_mul "=" 60) ;;
  print (verdict success_rate) ;;
  print (str_mul "=" 60).

(** ** The run *)

(** [SetupVerifier.run_all_checks] *)
Definition run_all_checks (env : Env) : M bool :=
  print_header ;;
  print_section "Python Environment" ;;
  check_python_version env ;;
  check_virtual_environment env ;;
  check_item "File write permissions" (check_file_permissions env) ;;
  print_section "Package Installation" ;;
  check_item "Essential packages installed" (check_essential_packages env) ;;
  check_item "Data manipulation (NumPy/Pandas)" (check_data_manipulation env) ;;
  check_item "Visualization (Matplotlib)" (check_visualization env) ;;
  print_section "Connectivity and Functionality" ;;
  check_item "Network connectivity (PyPI)" (check_network_connectivity env) ;;
  check_item "AI Security simulation" (run_security_simulation env) ;;
  print_summary env ;;
  v <- get_self ;;
  ret (length (errors v) =? 0).

(** [sys.exit(code)] *)
Definition sys_exit {A} (code : Z) : M A := raise (SystemExit code).

(** [try: body  except <class1>: handler1  except <class2> as e: handler2 e];
    the first clause that matches handles the exception, and what a handler
    raises is not caught by the other clause. *)
Definition try_except2 {A} (body : M A)
    (class1 : exn -> bool) (handler1 : exn -> M A)
    (class2 : exn -> bool) (handler2 : exn -> M A) : M A :=
  fun w =>
    match body w with
    | Normal a w' => Normal a w'
    | Raised e w' =>
        if class1 e then handler1 e w'
        else if class2 e then handler2 e w'
        else Raised e w'
    end.

(** [main].  [verifier = SetupVerifier()] makes the fresh object the one the
    methods work on. *)
Definition main (env : Env) : M unit :=
  try_except2
    (set_self (fun _ => init) ;;
     success <- run_all_checks env ;;
     print (newline +:+ "💡 Additional Information:") ;;
     print ("   Python executable: " +:+ sys_executable env) ;;
     cwd <- call (os_getcwd env) ;;
     print ("   Current directory: " +:+ cwd) ;;
     print ("   Platform: " +:+ sys_platform env) ;;
     sys_exit (if success : bool then 0 else 1)%Z)
    is_KeyboardInterrupt
    (fun _ =>
       print (newline +:+ newline +:+ "⚠️  Verification interrupted by user.") ;;
       sys_exit 1%Z)
    is_Exception
    (fun e =>
       print (newline +:+ newline +:+ "❌ Unexpected error during verification: " +:+ str e) ;;
       sys_exit 1%Z).

(** The status the interpreter exits with: the code of an uncaught
    [SystemExit], 0 when the program runs to its end, 1 when another
    exception is left uncaught. *)
Definition exit_status (r : result unit) : Z :=
  match r with
  | Normal _ _ => 0
  | Raised (SystemExit code) _ => code
  | Raised _ _ => 1
  end.

(** [python verify_setup.py] *)
Definition run_script (env : Env) : Z := exit_status (main env start).

(** ** Sample environments *)

(** A machine on which everything the script asks for is in place. *)
Definition ready_env : Env :=
  {| sys_version_info := mkVersion 3 12 1;
     os_environ := {[ "VIRTUAL_ENV" := "/home/student/.venv" ]};
     sys_has_real_prefix := false;
     sys_base_prefix := Some "/usr";
     sys_prefix := "/home/student/.venv";
     Path_name := fun _ => ".venv";
     import_module := fun _ => Returns (mkModule (Some "1.0"));
     write_and_unlink := Returns tt;
     mean_sum_is_number := Returns true;
     plot_offscreen := Returns tt;
     requests_get_status := Returns 200%Z;
     simulated_accuracy := Returns (93 # 100);
     format_percent2 := fun _ => "93.00%";
     format_fixed1 := fun _ => "100.0";
     sys_executable := "/home/student/.venv/bin/python";
     os_getcwd := Returns "/home/student";
     sys_platform := "linux" |}.

(** The same machine under another interpreter version. *)
Definition with_version (v : version_info) (env : Env) : Env :=
  {| sys_version_info := v;
     os_environ := os_environ env;
     sys_has_real_prefix := sys_has_real_prefix env;
     sys_base_prefix := sys_base_prefix env;
     sys_prefix := sys_prefix env;
     Path_name := Path_name env;
     import_module := import_module env;
     write_and_unlink := write_and_unlink env;
     mean_sum_is_number := mean_sum_is_number env;
     plot_offscreen := plot_offscreen env;
     requests_get_status := requests_get_status env;
     simulated_accuracy := simulated_accuracy env;
     format_percent2 := format_percent2 env;
     format_fixed1 := format_fixed1 env;
     sys_executable := sys_executable env;
     os_getcwd := os_getcwd env;
     sys_platform := sys_platform env |}.

(** The same machine outside any virtual environment. *)
Definition without_venv (env : Env) : Env :=
  {| sys_version_info := sys_version_info env;
     os_environ := ∅;
     sys_has_real_prefix := false;
     sys_base_prefix := Some (sys_prefix env);
     sys_prefix := sys_prefix env;
     Path_name := Path_name env;
     import_module := import_module env;
     write_and_unlink := write_and_unlink env;
     mean_sum_is_number := mean_sum_is_number env;
     plot_offscreen := plot_offscreen env;
     requests_get_status := requests_get_status env;
     simulated_accuracy := simulated_accuracy env;
     format_percent2 := format_percent2 env;
     format_fixed1 := format_fixed1 env;
     sys_executable := sys_executable env;
     os_getcwd := os_getcwd env;
     sys_platform := sys_platform env |}.

(** The same machine with another [importlib]. *)
Definition with_import (imp : string -> outcome module) (env : Env) : Env :=
  {| sys_version_info := sys_version_info env;
     os_environ := os_environ env;
     sys_has_real_prefix := sys_has_real_prefix env;
     sys_base_prefix := sys_base_prefix env;
     sys_prefix := sys_prefix env;
     Path_name := Path_name env;
     import_module := imp;
     write_and_unlink := write_and_unlink env;
     mean_sum_is_number := mean_sum_is_number env;
     plot_offscreen := plot_offscreen env;
     requests_get_status := requests_get_status env;
     simulated_accuracy := simulated_accuracy env;
     format_percent2 := format_percent2 env;
     format_fixed1 := format_fixed1 env;
     sys_executable := sys_executable env;
     os_getcwd := os_getcwd env;
     sys_platform := sys_platform env |}.

(** The same machine with another answer from the network. *)
Definition with_network (status : outcome Z) (env : Env) : Env :=
  {| sys_version_info := sys_version_info env;
     os_environ := os_environ env;
     sys_has_real_prefix := sys_has_real_prefix env;
     sys_base_prefix := sys_base_prefix env;
     sys_prefix := sys_prefix env;
     Path_name := Path_name env;
     import_module := import_module env;
     write_and_unlink := write_and_unlink env;
     mean_sum_is_number := mean_sum_is_number env;
     plot_offscreen := plot_offscreen env;
     requests_get_status := status;
     simulated_accuracy := simulated_accuracy env;
     format_percent2 := format_percent2 env;
     format_fixed1 := format_fixed1 env;
     sys_executable := sys_executable env;
     os_getcwd := os_getcwd env;
     sys_platform := sys_platform env |}.

(** ** Properties used in the statements *)

(** A computation that leaves the verifier object as it found it, however
    it ends; it may print. *)
Definition quiet {A} (m : M A) : Prop :=
  forall w,
    match m w with
    | Normal _ w' => self w' = self w
    | Raised _ w' => self w' = self w
    end.

(** The verifier after [self.total_checks += 1]. *)
Definition counted (v : SetupVerifier) : SetupVerifier :=
  {| errors := errors v; warnings := warnings v;
     success_count := success_count v; total_checks := total_checks v + 1 |}.

(** The verifier after [self.errors.append(x)]. *)
Definition with_error (x : string) (v : SetupVerifier) : SetupVerifier :=
  {| errors := errors v ++ [x]; warnings := warnings v;
     success_count := success_count v; total_checks := total_checks v |}.

(** The entries of a test sequence, as [check_items] takes them. *)
Definition as_checks (checks : list (string * fixed_outcome)) : list (string * M bool) :=
  map (fun c => (fst c, fixed (snd c))) checks.

(** What [check_item] returns for a check with a fixed outcome. *)
Definition passed (c : string * fixed_outcome) : bool :=
  match snd c with
  | passes => true
  | fails | raising _ => false
  end.

(** What [check_item] appends to the error list for a check with a fixed
    outcome. *)
Definition error_entry (c : string * fixed_outcome) : list string :=
  match snd c with
  | passes => []
  | fails => [fst c]
  | raising e => [fst c +:+ " - " +:+ str (Exception e)]
  end.

(** The success rate, as [print_summary] computes it when it can. *)
Definition success_rate (v : SetupVerifier) : Q :=
  (inject_Z (Z.of_nat (success_count v)) / inject_Z (Z.of_nat (total_checks v)) * 100)%Q.

(** ** Package sets *)

(** An [importlib] that imports exactly the modules [installed] knows and
    raises [ImportError] for every other name. *)
Definition importlib_of (installed : string -> option module) (name : string)
  : outcome module :=
  match installed name with
  | Some m => Returns m
  | None => Raises (Exception (ImportError ("No module named '" +:+ name +:+ "'")))
  end.

(** Whether a name resolves. *)
Definition resolves (installed : string -> option module) (name : string) : bool :=
  match installed name with
  | Some _ => true
  | None => false
  end.

(** The status line [check_essential_packages] prints for a name. *)
Definition status_line (installed : string -> option module) (name : string) : string :=
  match installed name with
  | Some m => "✅ " +:+ name +:+ " v" +:+ default "Unknown" (dunder_version m)
  | None => "❌ " +:+ name +:+ " - Not installed"
  end.

(** A machine on which only the module [a] is installed, without a
    [__version__]. *)
Definition only_a (name : string) : option module :=
  if String.eqb name "a" then Some (mkModule None) else None.

(** ** Properties of a whole run *)

(** A computation that, whenever it returns, has added [n] to
    [total_checks] and [n] to [success_count + len(errors)]. *)
Definition counts (n : nat) {A} (m : M A) : Prop :=
  forall w a w',
    m w = Normal a w' ->
    total_checks (self w') = total_checks (self w) + n /\
    success_count (self w') + length (errors (self w')) =
      success_count (self w) + length (errors (self w)) + n.

(** From [w] the computation returns [a] and leaves the verifier [v],
    whatever it printed. *)
Definition yields {A} (m : M A) (w : world) (a : A) (v : SetupVerifier) : Prop :=
  exists out, m w = Normal a {| self := v; stdout := out |}.

(** The verifier after a check that [check_item] reports as passed. *)
Definition scored (v : SetupVerifier) : SetupVerifier :=
  {| errors := errors v; warnings := warnings v;
     success_count := success_count v + 1; total_checks := total_checks v + 1 |}.

(** The verifier after [check_virtual_environment]. *)
Definition advised (env : Env) (v : SetupVerifier) : SetupVerifier :=
  if any (venv_indicators env) then v
  else {| errors := errors v;
          warnings := warnings v ++
            ["Not running in virtual environment (recommended but not required)"];
          success_count := success_count v; total_checks := total_checks v |}.

(** A machine on which each of the six checks that [run_all_checks] passes
    to [check_item] succeeds, and the working directory can be read. *)
Definition registered_checks_pass (env : Env) : Prop :=
  write_and_unlink env = Returns tt /\
  (forall name, In name essential_packages ->
     exists m, import_module env name = Returns m) /\
  mean_sum_is_number env = Returns true /\
  plot_offscreen env = Returns tt /\
  requests_get_status env = Returns 200%Z /\
  (exists accuracy, simulated_accuracy env = Returns accuracy /\ (7 # 10 < accuracy)%Q) /\
  (exists cwd, os_getcwd env = Returns cwd).

(** ** Properties of a run in any environment *)

(** A computation that lets no error out: whatever it raises is not derived
    from [Exception]. *)
Definition swallows_errors {A} (m : M A) : Prop :=
  forall w e w', m w = Raised e w' -> is_Exception e = false.

(** The descriptions [run_all_checks] passes to [check_item], in order. *)
Definition registered : list string :=
  ["File write permissions"; "Essential packages installed";
   "Data manipulation (NumPy/Pandas)"; "Visualization (Matplotlib)";
   "Network connectivity (PyPI)"; "AI Security simulation"].

(** The exception [e] comes out of one of the library calls that the six
    registered checks make. *)
Definition raised_by (env : Env) (e : exn) : Prop :=
  write_and_unlink env = Raises e \/
  (exists name, In name essential_packages /\ import_module env name = Raises e) \/
  mean_sum_is_number env = Raises e \/
  plot_offscreen env = Raises e \/
  requests_get_status env = Raises e \/
  simulated_accuracy env = Raises e.

(** The state in which a computation ended, whether it returned or raised. *)
Definition final {A} (r : result A) : world :=
  match r with
  | Normal _ w' => w'
  | Raised _ w' => w'
  end.

(** The import of [name] is settled: it returns the module or fails with
    [ImportError], the one failure [check_package_import] handles. *)
Definition import_settled (env : Env) (name : string) : Prop :=
  match import_module env name with
  | Returns _ => True
  | Raises e => is_ImportError e = true
  end.

(** A machine on which importing [broken] fails with the error [err] and
    every other import succeeds. *)
Definition broken_import (broken : string) (err : error) (name : string) : outcome module :=
  if String.eqb name broken then Raises (Exception err)
  else Returns (mkModule (Some "1.0")).

(** [check_item] reports the check [f] plainly: from every state it ends in
    one of three ways.  The check passed: one more success and the line
    with the check mark.  The check failed: the bare description is the
    error entry and the line.  Or an exception that is no error went
    through, after the check was counted.  Nothing else is printed, and no
    entry carries a message. *)
Definition reports_plainly (d : string) (f : M bool) : Prop :=
  forall w,
    match check_item d f w with
    | Normal true w' =>
        w' = {| self := scored (self w); stdout := stdout w ++ ["✅ " +:+ d] |}
    | Normal false w' =>
        w' = {| self := with_error d (counted (self w)); stdout := stdout w ++ ["❌ " +:+ d] |}
    | Raised e w' =>
        is_Exception e = false /\ w' = {| self := counted (self w); stdout := stdout w |}
    end.

(** The same machine with another filesystem. *)
Definition with_filesystem (written : outcome unit) (env : Env) : Env :=
  {| sys_version_info := sys_version_info env;
     os_environ := os_environ env;
     sys_has_real_prefix := sys_has_real_prefix env;
     sys_base_prefix := sys_base_prefix env;
     sys_prefix := sys_prefix env;
     Path_name := Path_name env;
     import_module := import_module env;
     write_and_unlink := written;
     mean_sum_is_number := mean_sum_is_number env;
     plot_offscreen := plot_offscreen env;
     requests_get_status := requests_get_status env;
     simulated_accuracy := simulated_accuracy env;
     format_percent2 := format_percent2 env;
     format_fixed1 := format_fixed1 env;
     sys_executable := sys_executable env;
     os_getcwd := os_getcwd env;
     sys_platform := sys_platform env |}.

(** The same machine with another result of the simulation. *)
Definition with_accuracy (accuracy : outcome Q) (env : Env) : Env :=
  {| sys_version_info := sys_version_info env;
     os_environ := os_environ env;
     sys_has_real_prefix := sys_has_real_prefix env;
     sys_base_prefix := sys_base_prefix env;
     sys_prefix := sys_prefix env;
     Path_name := Path_name env;
     import_module := import_module env;
     write_and_unlink := write_and_unlink env;
     mean_sum_is_number := mean_sum_is_number env;
     plot_offscreen := plot_offscreen env;
     requests_get_status := requests_get_status env;
     simulated_accuracy := accuracy;
     format_percent2 := format_percent2 env;
     format_fixed1 := format_fixed1 env;
     sys_executable := sys_executable env;
     os_getcwd := os_getcwd env;
     sys_platform := sys_platform env |}.

(** "Python version is 3.10+", the docstring of [check_python_version]: the
    version is 3.10 or a later one, by major and then minor number. *)
Definition is_3_10_plus (version : version_info) : bool :=
  ((3 <? major version)%Z || ((major version =? 3)%Z && (10 <=? minor version)%Z))%bool.

(** ** Machines that differ outside the checks *)

(** Two machines that answer the library calls of the six registered checks
    and [os.getcwd] alike.  They may differ in everything else: interpreter
    version, environment variables, prefixes, path names, number formats,
    executable and platform. *)
Definition same_probes (env1 env2 : Env) : Prop :=
  write_and_unlink env1 = write_and_unlink env2 /\
  (forall name, In name essential_packages ->
     import_module env1 name = import_module env2 name) /\
  mean_sum_is_number env1 = mean_sum_is_number env2 /\
  plot_offscreen env1 = plot_offscreen env2 /\
  requests_get_status env1 = requests_get_status env2 /\
  simulated_accuracy env1 = simulated_accuracy env2 /\
  os_getcwd env1 = os_getcwd env2.

(** Two states with the same counters and the same error list; warnings and
    output may differ. *)
Definition same_tally (w1 w2 : world) : Prop :=
  errors (self w1) = errors (self w2) /\
  success_count (self w1) = success_count (self w2) /\
  total_checks (self w1) = total_checks (self w2).

(** Two computations that ended the same way, with the same value or the
    same exception, in states with the same tally. *)
Definition alike {A} (r1 r2 : result A) : Prop :=
  match r1, r2 with
  | Normal a1 u1, Normal a2 u2 => a1 = a2 /\ same_tally u1 u2
  | Raised e1 u1, Raised e2 u2 => e1 = e2 /\ same_tally u1 u2
  | _, _ => False
  end.

(** Two computations that end alike from states with the same tally. *)
Definition simulates {A} (m1 m2 : M A) : Prop :=
  forall w1 w2, same_tally w1 w2 -> alike (m1 w1) (m2 w2).

(** A computation that always returns and leaves the tally as it was. *)
Definition passes_by {A} (m : M A) : Prop :=
  forall w, exists a w', m w = Normal a w' /\ same_tally w' w.

(** * Proofs *)

(** ** The runner *)

Section Runner.

Variable description : string.

(** What [check_item] does once the check function has run, by the way the
    function ended. *)
Lemma check_item_returns_true (f : M bool) (w w1 : world) :
  f {| self := counted (self w); stdout := stdout w |} = Normal true w1 ->
  check_item description f w =
    Normal true
      {| self := {| errors := errors (self w1); warnings := warnings (self w1);
                    success_count := success_count (self w1) + 1;
                    total_checks := total_checks (self w1) |};
         stdout := stdout w1 ++ ["✅ " +:+ description] |}.
Proof.
  intros Hf. unfold check_item, bind, try_except, incr_total_checks, set_self.
  unfold counted in Hf. rewrite Hf. reflexivity.
Qed.

Lemma check_item_returns_false (f : M bool) (w w1 : world) :
  f {| self := counted (self w); stdout := stdout w |} = Normal false w1 ->
  check_item description f w =
    Normal false
      {| self := with_error description (self w1);
         stdout := stdout w1 ++ ["❌ " +:+ description] |}.
Proof.
  intros Hf. unfold check_item, bind, try_except, incr_total_checks, set_self.
  unfold counted in Hf. rewrite Hf. reflexivity.
Qed.

Lemma check_item_raises (f : M bool) (w w1 : world) (e : exn) :
  f {| self := counted (self w); stdout := stdout w |} = Raised e w1 ->
  check_item description f w =
    if is_Exception e then
      Normal false
        {| self := with_error (description +:+ " - " +:+ str e) (self w1);
           stdout := stdout w1 ++ ["❌ " +:+ description +:+ " - Error: " +:+ str e] |}
    else Raised e w1.
Proof.
  intros Hf. unfold check_item, bind, try_except, incr_total_checks, set_self.
  unfold counted in Hf. rewrite Hf. destruct (is_Exception e); reflexivity.
Qed.

End Runner.

Lemma app_one_neq {A} (l : list A) (x : A) : l ++ [x] <> l.
Proof.
  intros H. apply (f_equal (@length A)) in H.
  rewrite length_app in H. cbn in H. lia.
Qed.

(** A quiet check function counts once: [check_item] adds one to
    [total_checks] and one to either [success_count] or the error list. *)
Lemma check_item_quiet (d : string) (f : M bool) (w : world) :
  quiet f ->
  match check_item d f w with
  | Normal b w' =>
      total_checks (self w') = total_checks (self w) + 1 /\
      success_count (self w') + length (errors (self w')) =
        success_count (self w) + length (errors (self w)) + 1 /\
      warnings (self w') = warnings (self w) /\
      (b = true <-> errors (self w') = errors (self w))
  | Raised e w' => is_Exception e = false /\ self w' = counted (self w)
  end.
Proof.
  intros Hq.
  specialize (Hq {| self := counted (self w); stdout := stdout w |}).
  destruct (f _) as [[|] w1|e w1] eqn:Hf; cbn [self] in Hq.
  - rewrite (check_item_returns_true d f w w1 Hf). cbn. rewrite Hq. cbn.
    split; [lia|]. split; [lia|]. split; [reflexivity|]. split; reflexivity.
  - rewrite (check_item_returns_false d f w w1 Hf). cbn. rewrite Hq. cbn.
    rewrite length_app. cbn. split; [lia|]. split; [lia|]. split; [reflexivity|].
    split; [discriminate|]. intros H. destruct (app_one_neq _ _ H).
  - rewrite (check_item_raises d f w w1 e Hf). destruct (is_Exception e) eqn:He.
    + cbn. rewrite Hq. cbn. rewrite length_app. cbn.
      split; [lia|]. split; [lia|]. split; [reflexivity|].
      split; [discriminate|]. intros H. destruct (app_one_neq _ _ H).
    + auto.
Qed.

Lemma fixed_quiet (o : fixed_outcome) : quiet (fixed o).
Proof. intros w. destruct o; reflexivity. Qed.

(** [check_item] on a check with a fixed outcome, in full. *)
Lemma check_item_fixed (c : string * fixed_outcome) (w : world) :
  exists w',
    check_item (fst c) (fixed (snd c)) w = Normal (passed c) w' /\
    errors (self w') = errors (self w) ++ error_entry c /\
    success_count (self w') = success_count (self w) + (if passed c then 1 else 0) /\
    total_checks (self w') = total_checks (self w) + 1 /\
    warnings (self w') = warnings (self w).
Proof.
  destruct c as [d [| |e]]; eexists; (split; [reflexivity|]); cbn;
    rewrite ?app_nil_r; repeat split; lia.
Qed.

(** A sequence of such checks runs to its end, whatever the outcomes. *)
Lemma check_items_fixed (checks : list (string * fixed_outcome)) (w : world) :
  exists w',
    check_items (as_checks checks) w = Normal (map passed checks) w' /\
    errors (self w') = errors (self w) ++ flat_map error_entry checks /\
    success_count (self w') = success_count (self w) + length (List.filter passed checks) /\
    total_checks (self w') = total_checks (self w) + length checks /\
    warnings (self w') = warnings (self w).
Proof.
  revert w. induction checks as [|c rest IH]; intros w.
  - exists w. cbn. rewrite app_nil_r. repeat split; lia.
  - destruct (check_item_fixed c w) as (w1 & Hc & He & Hs & Ht & Hw).
    destruct (IH w1) as (w2 & Hr & He2 & Hs2 & Ht2 & Hw2).
    exists w2. split.
    + cbn [as_checks map check_items]. unfold bind at 1. rewrite Hc.
      unfold bind at 1. fold (as_checks rest). rewrite Hr. reflexivity.
    + cbn [flat_map List.filter length]. rewrite He2, He, Hs2, Hs, Ht2, Ht, Hw2, Hw.
      rewrite <- app_assoc. split; [reflexivity|].
      destruct (passed c); cbn [length]; repeat split; lia.
Qed.

(** Each fixed check lands in exactly one of the two tallies. *)
Lemma tallies_cover (checks : list (string * fixed_outcome)) :
  length (List.filter passed checks) + length (flat_map error_entry checks) = length checks.
Proof.
  induction checks as [|[d [| |e]] rest IH]; cbn in *; lia.
Qed.

(** C1.  The counters agree, [total_checks == success_count + len(errors)],
    on a fresh verifier; [check_item], given a check that returns true,
    returns false or raises an error, returns and keeps them in agreement,
    and so does [warn_item]; and after a sequence of N such checks
    [total_checks == N] and [success_count + len(errors) == N]. *)
Theorem counts_agree_invariant :
  counts_agree init /\
  (forall d o w, counts_agree (self w) ->
     exists b w', check_item d (fixed o) w = Normal b w' /\ counts_agree (self w')) /\
  (forall d w, counts_agree (self w) ->
     exists w', warn_item d w = Normal tt w' /\ counts_agree (self w')) /\
  (forall checks : list (string * fixed_outcome),
     exists results w',
       check_items (as_checks checks) start = Normal results w' /\
       total_checks (self w') = length checks /\
       success_count (self w') + length (errors (self w')) = length checks).
Proof.
  unfold counts_agree. split; [reflexivity|]. split; [|split].
  - intros d o w Hinv.
    destruct (check_item_fixed (d, o) w) as (w' & Hc & He & Hs & Ht & _).
    exists (passed (d, o)), w'. split; [exact Hc|].
    rewrite He, Hs, Ht, length_app.
    destruct o; cbn; lia.
  - intros d w Hinv. eexists. split; [reflexivity|]. cbn. exact Hinv.
  - intros checks.
    destruct (check_items_fixed checks start) as (w' & Hr & He & Hs & Ht & _).
    exists (map passed checks), w'. split; [exact Hr|].
    rewrite He, Hs, Ht. cbn. pose proof (tallies_cover checks). split; lia.
Qed.

Lemma counts_agree_invariant_witness :
  counts_agree (self start) /\
  exists b w',
    check_item "probe" (fixed (raising (OtherError "boom"))) start = Normal b w' /\
    counts_agree (self w').
Proof.
  split; [reflexivity|].
  apply (proj1 (proj2 counts_agree_invariant) "probe" (raising (OtherError "boom")) start).
  reflexivity.
Defined.

(** * Errors raised by a check *)

(** C2, as the code has it.  [check_item] lets no error through: whatever it
    is given, it does not end in an exception derived from [Exception].
    When the check raises such an error, [check_item] appends
    "{description} - {message}" to the error list, prints the failure line
    with the message, returns false, and the checks after it run from the
    state it leaves; a sequence with a raising check in the middle runs to
    its end and keeps that entry. *)
Theorem check_item_contains_errors (d : string) (f : M bool) (w : world) :
  (forall e w', check_item d f w <> Raised (Exception e) w') /\
  (forall e w1,
     f {| self := counted (self w); stdout := stdout w |} = Raised (Exception e) w1 ->
     let recorded :=
       {| self := with_error (d +:+ " - " +:+ str (Exception e)) (self w1);
          stdout := stdout w1 ++ ["❌ " +:+ d +:+ " - Error: " +:+ str (Exception e)] |} in
     check_item d f w = Normal false recorded /\
     forall rest,
       check_items ((d, f) :: rest) w =
       bind (check_items rest) (fun bs => ret (false :: bs)) recorded) /\
  (forall before after e,
     exists results w',
       check_items (as_checks (before ++ (d, raising e) :: after)) w = Normal results w' /\
       length results = length before + 1 + length after /\
       total_checks (self w') = total_checks (self w) + length before + 1 + length after /\
       In (d +:+ " - " +:+ str (Exception e)) (errors (self w'))).
Proof.
  split; [|split].
  - intros e w' Hc.
    destruct (f {| self := counted (self w); stdout := stdout w |}) as [[|] w1|e1 w1] eqn:Hf.
    + rewrite (check_item_returns_true d f w w1 Hf) in Hc. discriminate.
    + rewrite (check_item_returns_false d f w w1 Hf) in Hc. discriminate.
    + rewrite (check_item_raises d f w w1 e1 Hf) in Hc.
      destruct (is_Exception e1) eqn:He1; [discriminate|].
      injection Hc as -> _. discriminate.
  - intros e w1 Hf recorded.
    pose proof (check_item_raises d f w w1 (Exception e) Hf) as Hc. cbn [is_Exception] in Hc.
    split; [exact Hc|].
    intros rest. cbn [check_items]. unfold bind at 1. rewrite Hc. reflexivity.
  - intros before after e.
    destruct (check_items_fixed (before ++ (d, raising e) :: after) w)
      as (w' & Hr & He & _ & Ht & _).
    exists (map passed (before ++ (d, raising e) :: after)), w'.
    split; [exact Hr|]. rewrite length_map, length_app. cbn [length].
    split; [lia|]. split; [rewrite Ht, length_app; cbn [length]; lia|].
    rewrite He, flat_map_app. cbn [flat_map error_entry snd fst].
    apply in_or_app. right. apply in_or_app. right. left. reflexivity.
Qed.

Lemma check_item_contains_errors_witness :
  check_item "Data manipulation (NumPy/Pandas)" (raise (Exception (OtherError "no numpy"))) start =
  Normal false
    {| self := {| errors := ["Data manipulation (NumPy/Pandas) - no numpy"]; warnings := [];
                  success_count := 0; total_checks := 1 |};
       stdout := ["❌ Data manipulation (NumPy/Pandas) - Error: no numpy"] |}.
Proof.
  apply (proj1 (proj2 (check_item_contains_errors "Data manipulation (NumPy/Pandas)"
                         (raise (Exception (OtherError "no numpy"))) start))
               (OtherError "no numpy") {| self := counted init; stdout := [] |}).
  reflexivity.
Defined.

(** The interrupt of a check is not an error: it leaves [check_item] as it
    entered, after the count was taken. *)
Lemma check_item_passes_interrupt_on :
  check_item "Network connectivity (PyPI)"
    (check_network_connectivity (with_network (Raises KeyboardInterrupt) ready_env)) start =
  Raised KeyboardInterrupt
    {| self := {| errors := []; warnings := []; success_count := 0; total_checks := 1 |};
       stdout := [] |}.
Proof. reflexivity. Qed.

(** * Warnings *)

(** C10.  [warn_item] returns, appends its description to the warnings and
    nothing else, and leaves [success_count], [total_checks] and the error
    list as they were, so the test [len(errors) == 0] that decides the run
    comes out as before. *)
Theorem warn_item_frame (description : string) (w : world) :
  exists w',
    warn_item description w = Normal tt w' /\
    warnings (self w') = warnings (self w) ++ [description] /\
    length (warnings (self w')) = length (warnings (self w)) + 1 /\
    success_count (self w') = success_count (self w) /\
    total_checks (self w') = total_checks (self w) /\
    errors (self w') = errors (self w) /\
    (length (errors (self w')) =? 0) = (length (errors (self w)) =? 0).
Proof.
  eexists. split; [reflexivity|]. cbn. rewrite length_app. cbn.
  repeat split; reflexivity.
Qed.

(** * The environment checks *)

(** The version check prints one line and touches nothing else. *)
Lemma check_python_version_quiet (env : Env) (w : world) :
  exists b line,
    check_python_version env w =
      Normal b {| self := self w; stdout := stdout w ++ [line] |}.
Proof.
  unfold check_python_version.
  destruct ((3 <=? major (sys_version_info env))%Z && (10 <=? minor (sys_version_info env))%Z)%bool;
    eexists; eexists; reflexivity.
Qed.

(** The version check returns the same answer from every state and leaves
    the verifier alone. *)
Lemma check_python_version_yields (env : Env) :
  exists meets, forall w, yields (check_python_version env) w meets (self w).
Proof.
  unfold check_python_version.
  destruct ((3 <=? major (sys_version_info env))%Z &&
            (10 <=? minor (sys_version_info env))%Z)%bool;
    eexists; intros w; eexists; reflexivity.
Qed.

Lemma check_virtual_environment_yields (env : Env) (w : world) :
  yields (check_virtual_environment env) w true (advised env (self w)).
Proof.
  unfold check_virtual_environment, advised.
  destruct (any (venv_indicators env)); eexists; reflexivity.
Qed.

(** The environment check touches the warnings only. *)
Lemma advised_frame (env : Env) (v : SetupVerifier) :
  errors (advised env v) = errors v /\
  success_count (advised env v) = success_count v /\
  total_checks (advised env v) = total_checks v.
Proof. unfold advised. destruct (any (venv_indicators env)); repeat split. Qed.

(** The test [any(venv_indicators)] against the environment it reads: it
    fails exactly when neither variable is set, [sys] has no [real_prefix],
    and [sys.base_prefix] is missing or equal to [sys.prefix]. *)
Lemma no_venv_indicator_iff (env : Env) :
  any (venv_indicators env) = false <->
  os_environ env !! "VIRTUAL_ENV" = None /\
  os_environ env !! "CONDA_DEFAULT_ENV" = None /\
  sys_has_real_prefix env = false /\
  (sys_base_prefix env = None \/ sys_base_prefix env = Some (sys_prefix env)).
Proof.
  unfold any, venv_indicators. cbn [existsb]. rewrite orb_false_r, !orb_false_iff.
  rewrite !bool_decide_eq_false, <- !eq_None_not_Some.
  destruct (sys_base_prefix env) as [base|].
  - rewrite negb_false_iff, String.eqb_eq. split.
    + intros (H1 & H2 & H3 & ->). auto.
    + intros (H1 & H2 & H3 & [H4|H4]); [discriminate|]. injection H4 as ->. auto.
  - split; intros (H1 & H2 & H3 & _); auto.
Qed.

(** C9.  [check_virtual_environment] returns true in every environment and
    leaves the counters and the error list untouched.  With no indicator
    present (neither VIRTUAL_ENV nor CONDA_DEFAULT_ENV is set, [sys] has no
    [real_prefix], and [sys.base_prefix] is missing or equal to
    [sys.prefix]) it records the warning, prints it, and still returns
    true.  With an indicator present (one of the two variables is set, or
    [sys] has a [real_prefix], or [sys.base_prefix] differs from
    [sys.prefix]) it returns true, the warnings stay as they were, and the
    one line it prints is the line of the active environment. *)
Theorem check_virtual_environment_always_true (env : Env) (w : world) :
  exists w',
    check_virtual_environment env w = Normal true w' /\
    (os_environ env !! "VIRTUAL_ENV" = None ->
     os_environ env !! "CONDA_DEFAULT_ENV" = None ->
     sys_has_real_prefix env = false ->
     sys_base_prefix env = None \/ sys_base_prefix env = Some (sys_prefix env) ->
     warnings (self w') =
       warnings (self w) ++
       ["Not running in virtual environment (recommended but not required)"] /\
     stdout w' =
       stdout w ++
       ["⚠️  " +:+ "Not running in virtual environment (recommended but not required)"]) /\
    (is_Some (os_environ env !! "VIRTUAL_ENV") \/
     is_Some (os_environ env !! "CONDA_DEFAULT_ENV") \/
     sys_has_real_prefix env = true \/
     (exists base, sys_base_prefix env = Some base /\ base <> sys_prefix env) ->
     warnings (self w') = warnings (self w) /\
     exists venv_name,
       stdout w' = stdout w ++ ["✅ Virtual environment active: " +:+ venv_name]) /\
    errors (self w') = errors (self w) /\
    success_count (self w') = success_count (self w) /\
    total_checks (self w') = total_checks (self w).
Proof.
  pose proof (no_venv_indicator_iff env) as Hiff.
  unfold check_virtual_environment.
  destruct (any (venv_indicators env)); eexists; (split; [reflexivity|]); cbn [self stdout].
  - split; [|split; [|repeat split]].
    + intros H1 H2 H3 H4.
      assert (true = false) as Habs by (apply Hiff; auto). discriminate Habs.
    + intros _. split; [reflexivity|]. eexists. reflexivity.
  - destruct (proj1 Hiff eq_refl) as (H1 & H2 & H3 & H4).
    split; [|split; [|repeat split]].
    + intros _ _ _ _. split; reflexivity.
    + intros [[v Hv]|[[v Hv]|[Hreal|(base & Hbase & Hne)]]].
      * rewrite H1 in Hv. discriminate Hv.
      * rewrite H2 in Hv. discriminate Hv.
      * rewrite H3 in Hreal. discriminate Hreal.
      * destruct H4 as [H4|H4]; rewrite H4 in Hbase; [discriminate Hbase|].
        injection Hbase as <-. destruct Hne. reflexivity.
Qed.

Lemma check_virtual_environment_always_true_witness :
  (exists w',
     check_virtual_environment (without_venv ready_env) start = Normal true w' /\
     warnings (self w') =
       ["Not running in virtual environment (recommended but not required)"]) /\
  (exists w',
     check_virtual_environment ready_env start = Normal true w' /\
     warnings (self w') = [] /\
     exists venv_name, stdout w' = ["✅ Virtual environment active: " +:+ venv_name]).
Proof.
  split.
  - destruct (check_virtual_environment_always_true (without_venv ready_env) start)
      as (w' & Hr & Habsent & _).
    exists w'. split; [exact Hr|].
    apply Habsent; [reflexivity|reflexivity|reflexivity|right; reflexivity].
  - destruct (check_virtual_environment_always_true ready_env start)
      as (w' & Hr & _ & Hpresent & _).
    exists w'. split; [exact Hr|].
    apply Hpresent. left. exists "/home/student/.venv". reflexivity.
Defined.

(** C4.  Under Python 4.0.0 the version check reports failure, although
    4.0.0 is above the 3.10 the check asks for. *)
Theorem check_python_version_rejects_4_0 :
  check_python_version (with_version (mkVersion 4 0 0) ready_env) start =
  Normal false
    {| self := init; stdout := ["❌ Python version: 4.0.0 (requires 3.10+)"] |}.
Proof. reflexivity. Qed.

(** What the version check computes: both comparisons must hold, and it
    always returns. *)
Lemma check_python_version_spec (env : Env) (w : world) :
  exists b w',
    check_python_version env w = Normal b w' /\
    (b = true <->
     (3 <= major (sys_version_info env))%Z /\ (10 <= minor (sys_version_info env))%Z).
Proof.
  unfold check_python_version.
  destruct ((3 <=? major (sys_version_info env))%Z &&
            (10 <=? minor (sys_version_info env))%Z)%bool eqn:Hc;
    eexists; eexists; (split; [reflexivity|]).
  - apply andb_true_iff in Hc. destruct Hc as [H1 H2].
    apply Z.leb_le in H1. apply Z.leb_le in H2. tauto.
  - split; [discriminate|]. intros [H1 H2].
    apply Z.leb_le in H1. apply Z.leb_le in H2.
    rewrite H1, H2 in Hc. discriminate.
Qed.

(** * The verdict *)

Lemma tiers_distinct :
  top_tier <> middle_tier /\ middle_tier <> bottom_tier /\ top_tier <> bottom_tier.
Proof. repeat split; discriminate. Qed.

(** C6.  The verdict is a function of the success rate alone: a rate of at
    least 90 gives the top-tier message, a rate of at least 75 and below 90
    the middle-tier message, a rate below 75 the bottom-tier message; so 95
    is top, 80 middle and 50 bottom; and the three messages differ. *)
Theorem verdict_tiers (r : Q) :
  ((90 <= r)%Q -> verdict r = top_tier) /\
  ((75 <= r)%Q /\ (r < 90)%Q -> verdict r = middle_tier) /\
  ((r < 75)%Q -> verdict r = bottom_tier) /\
  verdict 95 = top_tier /\ verdict 80 = middle_tier /\ verdict 50 = bottom_tier /\
  top_tier <> middle_tier /\ middle_tier <> bottom_tier /\ top_tier <> bottom_tier.
Proof.
  unfold verdict. split; [|split; [|split]].
  - intros H. apply Qle_bool_iff in H. rewrite H. reflexivity.
  - intros [H75 H90].
    destruct (Qle_bool 90 r) eqn:E90.
    + apply Qle_bool_iff in E90. destruct (Qlt_not_le _ _ H90 E90).
    + apply Qle_bool_iff in H75. rewrite H75. reflexivity.
  - intros H.
    destruct (Qle_bool 90 r) eqn:E90.
    + apply Qle_bool_iff in E90. exfalso. apply (Qlt_not_le _ _ H).
      apply Qle_trans with (y := 90%Q); [unfold Qle; cbn; lia|exact E90].
    + destruct (Qle_bool 75 r) eqn:E75; [|reflexivity].
      apply Qle_bool_iff in E75. destruct (Qlt_not_le _ _ H E75).
  - split; [reflexivity|]. split; [reflexivity|]. split; [reflexivity|].
    exact tiers_distinct.
Qed.

Lemma verdict_tiers_witness :
  verdict ((5 # 6) * 100) = middle_tier.
Proof.
  apply (proj1 (proj2 (verdict_tiers ((5 # 6) * 100)))).
  split; [unfold Qle|unfold Qlt]; cbn; lia.
Defined.

(** * The summary *)

(** A loop that only prints adds one line per element. *)
Lemma for_each_print {A} (xs : list A) (line : A -> string) (w : world) :
  for_each xs (fun x => print (line x)) w =
  Normal tt {| self := self w; stdout := stdout w ++ map line xs |}.
Proof.
  revert w. induction xs as [|x rest IH]; intros w.
  - cbn. rewrite app_nil_r. destruct w; reflexivity.
  - cbn [for_each map]. unfold bind, print at 1. rewrite IH. cbn.
    rewrite <- app_assoc. reflexivity.
Qed.

Lemma print_eq (line : string) (w : world) :
  print line w = Normal tt {| self := self w; stdout := stdout w ++ [line] |}.
Proof. reflexivity. Qed.

(** Symbolic execution of a method body: unfold the sequencing, replace
    each finished [print] and printing loop by its result. *)
Ltac run_prints :=
  repeat (progress (rewrite ?print_eq, ?for_each_print; cbn beta iota delta [self stdout])).


Lemma app_last_two {A} (l before : list A) (x y : A) :
  l ++ before ++ [x; y] = ((l ++ before) ++ [x]) ++ [y].
Proof. rewrite <- !app_assoc. reflexivity. Qed.

(** With a check counted, [print_summary] runs through: it only prints, and
    the last two lines are the verdict and the closing rule. *)
Lemma print_summary_returns (env : Env) (w : world) :
  total_checks (self w) <> 0 ->
  exists before,
    print_summary env w =
    Normal tt
      {| self := self w;
         stdout := ((stdout w ++ before) ++ [verdict (success_rate (self w))]) ++
                   [str_mul "=" 60] |}.
Proof.
  intros Hn. apply Nat.eqb_neq in Hn.
  unfold print_summary, bind, get_self, true_div, ret. run_prints.
  rewrite Hn. fold (success_rate (self w)).
  destruct (warnings (self w)) as [|wn wns]; destruct (errors (self w)) as [|er ers];
    run_prints; eexists; do 4 f_equal; rewrite <- !app_assoc; reflexivity.
Qed.

(** C3, as the code has it.  Once a check has been counted the summary is
    defined: [print_summary] returns, leaves the verifier alone, and ends
    its output with the verdict for [success_count / total_checks * 100]
    and the closing rule. *)
Theorem print_summary_defined (env : Env) (w : world) :
  total_checks (self w) <> 0 ->
  exists w' before,
    print_summary env w = Normal tt w' /\
    self w' = self w /\
    stdout w' = stdout w ++ before ++ [verdict (success_rate (self w)); str_mul "=" 60].
Proof.
  intros Hn. destruct (print_summary_returns env w Hn) as [before Hrun].
  eexists. exists before. split; [exact Hrun|]. cbn [self stdout].
  split; [reflexivity|]. symmetry. apply app_last_two.
Qed.

Lemma print_summary_defined_witness :
  exists w' before,
    print_summary ready_env
      {| self := {| errors := ["Network connectivity (PyPI)"]; warnings := [];
                    success_count := 5; total_checks := 6 |};
         stdout := [] |} = Normal tt w' /\
    stdout w' = before ++ [middle_tier; str_mul "=" 60].
Proof.
  destruct (print_summary_defined ready_env
              {| self := {| errors := ["Network connectivity (PyPI)"]; warnings := [];
                            success_count := 5; total_checks := 6 |};
                 stdout := [] |}) as (w' & before & Hr & _ & Hout).
  - cbn. lia.
  - exists w', before. split; [exact Hr|exact Hout].
Defined.

(** With no check counted the division fails: the summary of a fresh
    verifier stops at [success_count / total_checks]. *)
Lemma print_summary_divides_by_zero :
  print_summary ready_env start =
  Raised (Exception (ZeroDivisionError "division by zero"))
    {| self := init;
       stdout := [newline +:+ str_mul "=" 60; "📊 VERIFICATION SUMMARY"; str_mul "=" 60] |}.
Proof. reflexivity. Qed.

(** ** The dependency check *)

(** The text [check_package_import] returns for a module is never empty. *)
Lemma import_text_truthy (name version : string) :
  truthy (Some (name +:+ " v" +:+ version)) = true.
Proof. destruct name; reflexivity. Qed.

(** One probe: the module's text when the name resolves, [None] when it
    does not; nothing is printed. *)
Lemma check_package_import_of (env : Env) (installed : string -> option module)
    (name : string) (w : world) :
  import_module env name = importlib_of installed name ->
  check_package_import env name w =
  Normal (match installed name with
          | Some m => Some (name +:+ " v" +:+ default "Unknown" (dunder_version m))
          | None => None
          end) w.
Proof.
  intros Himp. unfold check_package_import, try_except, bind. rewrite Himp.
  unfold importlib_of. destruct (installed name); reflexivity.
Qed.

(** The first loop sorts the names and leaves the world alone. *)
Lemma probe_packages_of (env : Env) (installed : string -> option module)
    (packages missing found : list string) (w : world) :
  (forall name, In name packages -> import_module env name = importlib_of installed name) ->
  probe_packages env packages missing found w =
  Normal
    (missing ++ List.filter (fun name => negb (resolves installed name)) packages,
     found ++
       map (fun name =>
              name +:+ " v" +:+
              default "Unknown" (match installed name with
                                 | Some m => dunder_version m
                                 | None => None
                                 end))
           (List.filter (resolves installed) packages)) w.
Proof.
  revert missing found.
  induction packages as [|name rest IH]; intros missing found Himp.
  - cbn. rewrite !app_nil_r. reflexivity.
  - cbn [probe_packages]. unfold bind at 1.
    rewrite (check_package_import_of env installed name w (Himp name (or_introl eq_refl))).
    cbn [List.filter].
    destruct (installed name) as [m|] eqn:Hin.
    + assert (resolves installed name = true) as -> by (unfold resolves; rewrite Hin; reflexivity).
      rewrite import_text_truthy. rewrite IH by (intros n Hn; apply Himp; right; exact Hn).
      cbn [negb map]. rewrite Hin, <- app_assoc. reflexivity.
    + assert (resolves installed name = false) as -> by (unfold resolves; rewrite Hin; reflexivity).
      rewrite IH by (intros n Hn; apply Himp; right; exact Hn).
      cbn [negb]. rewrite <- app_assoc. reflexivity.
Qed.

Lemma filter_split_perm {A} (p : A -> bool) (l : list A) :
  Permutation (List.filter p l ++ List.filter (fun x => negb (p x)) l) l.
Proof.
  induction l as [|x rest IH]; [constructor|].
  cbn [List.filter]. destruct (p x); cbn [negb app].
  - constructor. exact IH.
  - apply Permutation_sym. etransitivity; [|apply Permutation_middle].
    constructor. apply Permutation_sym. exact IH.
Qed.

(** What the whole check returns and prints on such a machine. *)
Lemma check_packages_of (env : Env) (installed : string -> option module)
    (packages : list string) (w : world) :
  (forall name, In name packages -> import_module env name = importlib_of installed name) ->
  check_packages env packages w =
  Normal (forallb (resolves installed) packages)
    {| self := self w;
       stdout := stdout w ++
         map (status_line installed) (List.filter (resolves installed) packages) ++
         map (status_line installed)
             (List.filter (fun name => negb (resolves installed name)) packages) |}.
Proof.
  intros Himp. unfold check_packages. unfold bind at 1.
  rewrite (probe_packages_of env installed packages [] [] w Himp).
  cbn [fst snd app]. unfold bind. rewrite !for_each_print. cbn [self stdout].
  unfold ret. f_equal.
  - clear Himp. induction packages as [|name rest IH]; [reflexivity|].
    cbn [List.filter forallb]. destruct (resolves installed name); cbn [negb andb length].
    + exact IH.
    + reflexivity.
  - f_equal. rewrite <- app_assoc. f_equal. f_equal.
    + rewrite map_map. apply map_ext_in. intros name Hname.
      apply filter_In in Hname. destruct Hname as [_ Hres].
      unfold resolves in Hres. unfold status_line.
      destruct (installed name); [reflexivity|discriminate].
    + apply map_ext_in. intros name Hname.
      apply filter_In in Hname. destruct Hname as [_ Hres].
      unfold resolves in Hres. unfold status_line.
      destruct (installed name); [discriminate|reflexivity].
Qed.

(** C8.  Whatever subset of the required names resolves,
    [check_essential_packages] (here with the list as a parameter) returns
    true exactly when every name resolves; before returning it prints the
    lines of the resolved names and then those of the unresolved ones, one
    status line for each name of the list, and it changes nothing else. *)
Theorem check_packages_all_or_nothing (env : Env) (installed : string -> option module)
    (packages : list string) (w : world) :
  (forall name, In name packages -> import_module env name = importlib_of installed name) ->
  exists b printed,
    check_packages env packages w =
      Normal b {| self := self w; stdout := stdout w ++ printed |} /\
    (b = true <-> forall name, In name packages -> resolves installed name = true) /\
    printed =
      map (status_line installed) (List.filter (resolves installed) packages) ++
      map (status_line installed)
          (List.filter (fun name => negb (resolves installed name)) packages) /\
    Permutation printed (map (status_line installed) packages).
Proof.
  intros Himp.
  exists (forallb (resolves installed) packages).
  eexists. split; [|split; [|split; [reflexivity|]]].
  - apply check_packages_of. exact Himp.
  - rewrite forallb_forall. reflexivity.
  - rewrite <- map_app. apply Permutation_map. apply filter_split_perm.
Qed.

Lemma check_packages_all_or_nothing_witness :
  check_packages (with_import (importlib_of only_a) ready_env) ["a"; "b"; "c"] start =
  Normal false
    {| self := init;
       stdout := ["✅ a vUnknown"; "❌ b - Not installed"; "❌ c - Not installed"] |}.
Proof.
  destruct (check_packages_all_or_nothing
              (with_import (importlib_of only_a) ready_env) only_a ["a"; "b"; "c"] start)
    as (b & printed & Hrun & Hb & Hprinted & _).
  - intros name _. reflexivity.
  - rewrite Hrun, Hprinted. destruct b; [|reflexivity].
    assert (resolves only_a "b" = true) as Habs
      by (apply (proj1 Hb eq_refl); right; left; reflexivity).
    discriminate Habs.
Defined.

(** Run through [check_item], the same machine yields one error for the
    whole check, after the three status lines. *)
Example one_error_for_three_names :
  check_item "Essential packages installed"
    (check_packages (with_import (importlib_of only_a) ready_env) ["a"; "b"; "c"]) start =
  Normal false
    {| self := {| errors := ["Essential packages installed"]; warnings := [];
                  success_count := 0; total_checks := 1 |};
       stdout := ["✅ a vUnknown"; "❌ b - Not installed"; "❌ c - Not installed";
                  "❌ Essential packages installed"] |}.
Proof. reflexivity. Qed.

(** ** Sequencing *)

Lemma bind_normal {A B} (m : M A) (k : A -> M B) (w w' : world) (b : B) :
  bind m k w = Normal b w' ->
  exists a w1, m w = Normal a w1 /\ k a w1 = Normal b w'.
Proof.
  unfold bind. destruct (m w) as [a w1|e w1]; [|discriminate].
  intros H. exists a, w1. split; [reflexivity|exact H].
Qed.

Lemma bind_raised {A B} (m : M A) (k : A -> M B) (w w' : world) (e : exn) :
  m w = Raised e w' -> bind m k w = Raised e w'.
Proof. intros H. unfold bind. rewrite H. reflexivity. Qed.

Lemma counts_bind {A B} (n1 n2 : nat) (m : M A) (k : A -> M B) :
  counts n1 m -> (forall a, counts n2 (k a)) -> counts (n1 + n2) (bind m k).
Proof.
  intros Hm Hk w b w' Hrun.
  apply bind_normal in Hrun. destruct Hrun as (a & w1 & H1 & H2).
  apply Hm in H1. apply Hk in H2. lia.
Qed.

Lemma quiet_counts {A} (m : M A) : quiet m -> counts 0 m.
Proof.
  intros Hq w a w' Hrun. specialize (Hq w). rewrite Hrun in Hq. rewrite Hq. lia.
Qed.

Lemma yields_bind {A B} (m : M A) (k : A -> M B) (w : world) (a : A) (b : B)
    (v1 v2 : SetupVerifier) :
  yields m w a v1 ->
  (forall out, yields (k a) {| self := v1; stdout := out |} b v2) ->
  yields (bind m k) w b v2.
Proof.
  intros [out1 H1] Hk. destruct (Hk out1) as [out2 H2].
  exists out2. unfold bind. rewrite H1. exact H2.
Qed.

(** ** The checks, one by one *)

Lemma print_quiet (line : string) : quiet (print line).
Proof. intros w. reflexivity. Qed.

Lemma print_header_quiet : quiet print_header.
Proof. intros w. reflexivity. Qed.

Lemma print_section_quiet (title : string) : quiet (print_section title).
Proof. intros w. reflexivity. Qed.

Lemma check_file_permissions_quiet (env : Env) : quiet (check_file_permissions env).
Proof.
  intros w. unfold check_file_permissions, try_except, bind.
  destruct (write_and_unlink env) as [[]|e]; cbn; [reflexivity|].
  destruct (is_Exception e); reflexivity.
Qed.

Lemma check_data_manipulation_quiet (env : Env) : quiet (check_data_manipulation env).
Proof.
  intros w. unfold check_data_manipulation, try_except.
  destruct (mean_sum_is_number env) as [b|e]; cbn; [reflexivity|].
  destruct (is_Exception e); reflexivity.
Qed.

Lemma check_visualization_quiet (env : Env) : quiet (check_visualization env).
Proof.
  intros w. unfold check_visualization, try_except, bind.
  destruct (plot_offscreen env) as [[]|e]; cbn; [reflexivity|].
  destruct (is_Exception e); reflexivity.
Qed.

Lemma check_network_connectivity_quiet (env : Env) : quiet (check_network_connectivity env).
Proof.
  intros w. unfold check_network_connectivity, try_except, bind.
  destruct (requests_get_status env) as [status|e]; cbn; [reflexivity|].
  destruct (is_Exception e); reflexivity.
Qed.

Lemma run_security_simulation_quiet (env : Env) : quiet (run_security_simulation env).
Proof.
  intros w. unfold run_security_simulation, try_except, bind.
  destruct (simulated_accuracy env) as [accuracy|e]; cbn; [reflexivity|].
  destruct (is_Exception e); reflexivity.
Qed.

Lemma check_package_import_world (env : Env) (name : string) (w : world) :
  match check_package_import env name w with
  | Normal _ w' => w' = w
  | Raised _ w' => w' = w
  end.
Proof.
  unfold check_package_import, try_except, bind.
  destruct (import_module env name) as [m|e]; cbn; [reflexivity|].
  destruct (is_ImportError e); reflexivity.
Qed.

Lemma probe_packages_world (env : Env) (packages missing found : list string) (w : world) :
  match probe_packages env packages missing found w with
  | Normal _ w' => w' = w
  | Raised _ w' => w' = w
  end.
Proof.
  revert missing found. induction packages as [|name rest IH]; intros missing found.
  - reflexivity.
  - cbn [probe_packages]. unfold bind.
    pose proof (check_package_import_world env name w) as Hone.
    destruct (check_package_import env name w) as [[text|] w1|e w1]; subst w1.
    + destruct (truthy (Some text)); apply IH.
    + apply IH.
    + reflexivity.
Qed.

Lemma check_packages_quiet (env : Env) (packages : list string) :
  quiet (check_packages env packages).
Proof.
  intros w. unfold check_packages. unfold bind at 1.
  pose proof (probe_packages_world env packages [] [] w) as Hprobe.
  destruct (probe_packages env packages [] [] w) as [[missing found] w1|e w1]; subst w1.
  - cbn [fst snd]. unfold bind. rewrite !for_each_print. reflexivity.
  - reflexivity.
Qed.

Lemma print_summary_quiet (env : Env) : quiet (print_summary env).
Proof.
  intros w. destruct (total_checks (self w) =? 0) eqn:Hn.
  - unfold print_summary, bind, get_self, true_div. run_prints. rewrite Hn. reflexivity.
  - apply Nat.eqb_neq in Hn.
    destruct (print_summary_returns env w Hn) as [before Hrun].
    rewrite Hrun. reflexivity.
Qed.

(** [check_item] on a quiet check counts one. *)
Lemma check_item_counts (d : string) (f : M bool) : quiet f -> counts 1 (check_item d f).
Proof.
  intros Hq w b w' Hrun. pose proof (check_item_quiet d f w Hq) as H.
  rewrite Hrun in H. tauto.
Qed.

Lemma check_python_version_counts (env : Env) : counts 0 (check_python_version env).
Proof.
  apply quiet_counts. intros w.
  destruct (check_python_version_quiet env w) as (b & line & ->). reflexivity.
Qed.

Lemma check_virtual_environment_counts (env : Env) : counts 0 (check_virtual_environment env).
Proof.
  intros w a w' Hrun.
  destruct (check_virtual_environment_yields env w) as [out Hr].
  rewrite Hr in Hrun. injection Hrun as _ <-. cbn [self].
  destruct (advised_frame env (self w)) as (-> & -> & ->). lia.
Qed.

(** A run that returns has counted exactly six checks. *)
Lemma run_all_checks_counts (env : Env) : counts 6 (run_all_checks env).
Proof.
  unfold run_all_checks.
  apply (counts_bind 0 6); [apply quiet_counts, print_header_quiet|intros _].
  apply (counts_bind 0 6); [apply quiet_counts, print_section_quiet|intros _].
  apply (counts_bind 0 6); [apply check_python_version_counts|intros _].
  apply (counts_bind 0 6); [apply check_virtual_environment_counts|intros _].
  apply (counts_bind 1 5); [apply check_item_counts, check_file_permissions_quiet|intros _].
  apply (counts_bind 0 5); [apply quiet_counts, print_section_quiet|intros _].
  apply (counts_bind 1 4); [apply check_item_counts, check_packages_quiet|intros _].
  apply (counts_bind 1 3); [apply check_item_counts, check_data_manipulation_quiet|intros _].
  apply (counts_bind 1 2); [apply check_item_counts, check_visualization_quiet|intros _].
  apply (counts_bind 0 2); [apply quiet_counts, print_section_quiet|intros _].
  apply (counts_bind 1 1); [apply check_item_counts, check_network_connectivity_quiet|intros _].
  apply (counts_bind 1 0); [apply check_item_counts, run_security_simulation_quiet|intros _].
  apply (counts_bind 0 0); [apply quiet_counts, print_summary_quiet|intros _].
  apply quiet_counts. intros w. reflexivity.
Qed.

(** What a run returns is the test [len(self.errors) == 0] on the verifier
    it leaves. *)
Lemma run_all_checks_returns (env : Env) (w w' : world) (success : bool) :
  run_all_checks env w = Normal success w' ->
  success = (length (errors (self w')) =? 0).
Proof.
  unfold run_all_checks. intros H.
  do 13 (apply bind_normal in H; destruct H as (? & ? & _ & H)).
  unfold bind, get_self, ret in H. injection H as <- <-. reflexivity.
Qed.

(** ** The exit status *)

(** The status of the script, by the way [run_all_checks] and [os.getcwd]
    end. *)
Lemma run_script_cases (env : Env) :
  run_script env =
  match run_all_checks env start with
  | Normal success _ =>
      match os_getcwd env with
      | Returns _ => if success then 0%Z else 1%Z
      | Raises e =>
          if (is_KeyboardInterrupt e || is_Exception e)%bool then 1%Z
          else exit_status (Raised e start)
      end
  | Raised e _ =>
      if (is_KeyboardInterrupt e || is_Exception e)%bool then 1%Z
      else exit_status (Raised e start)
  end.
Proof.
  assert (set_self (fun _ => init) start = Normal tt start) as Hnew by reflexivity.
  unfold run_script, main, try_except2. unfold bind at 1. rewrite Hnew.
  unfold bind at 1.
  destruct (run_all_checks env start) as [success w1|e w1].
  - unfold bind, call. run_prints.
    destruct (os_getcwd env) as [cwd|e].
    + destruct success; reflexivity.
    + destruct e as [err| | |]; reflexivity.
  - destruct e as [err| | |]; reflexivity.
Qed.



(** ** The checks that bypass the runner *)

Lemma yields_quiet {A} (m : M A) (w w' : world) (a : A) :
  quiet m -> m w = Normal a w' -> yields m w a (self w).
Proof.
  intros Hq Hrun. specialize (Hq w). rewrite Hrun in Hq.
  exists (stdout w'). rewrite Hrun. rewrite <- Hq. destruct w'; reflexivity.
Qed.

(** [check_item] on a check that succeeds quietly. *)
Lemma check_item_yields (d : string) (f : M bool) (w : world) :
  (forall w0, exists w1, f w0 = Normal true w1 /\ self w1 = self w0) ->
  yields (check_item d f) w true (scored (self w)).
Proof.
  intros Hf.
  destruct (Hf {| self := counted (self w); stdout := stdout w |}) as (w1 & Hrun & Hself).
  eexists. rewrite (check_item_returns_true d f w w1 Hrun), Hself. reflexivity.
Qed.

Section AllPass.

Variable env : Env.
Hypothesis Hpass : registered_checks_pass env.

Lemma check_file_permissions_passes (w : world) :
  exists w1, check_file_permissions env w = Normal true w1 /\ self w1 = self w.
Proof.
  destruct Hpass as (Hwrite & _). exists w.
  unfold check_file_permissions, try_except, bind. rewrite Hwrite. split; reflexivity.
Qed.

Lemma check_essential_packages_passes (w : world) :
  exists w1, check_essential_packages env w = Normal true w1 /\ self w1 = self w.
Proof.
  destruct Hpass as (_ & Himp & _).
  set (installed := fun name =>
         match import_module env name with
         | Returns m => Some m
         | Raises _ => None
         end).
  assert (forallb (resolves installed) essential_packages = true) as Hall.
  { apply forallb_forall. intros name Hname.
    destruct (Himp name Hname) as [m Hm]. unfold resolves, installed.
    rewrite Hm. reflexivity. }
  eexists. unfold check_essential_packages.
  rewrite (check_packages_of env installed essential_packages w).
  - rewrite Hall. split; reflexivity.
  - intros name Hname. destruct (Himp name Hname) as [m Hm].
    unfold importlib_of, installed. rewrite Hm. reflexivity.
Qed.

Lemma check_data_manipulation_passes (w : world) :
  exists w1, check_data_manipulation env w = Normal true w1 /\ self w1 = self w.
Proof.
  destruct Hpass as (_ & _ & Hdata & _). exists w.
  unfold check_data_manipulation, try_except. rewrite Hdata. split; reflexivity.
Qed.

Lemma check_visualization_passes (w : world) :
  exists w1, check_visualization env w = Normal true w1 /\ self w1 = self w.
Proof.
  destruct Hpass as (_ & _ & _ & Hplot & _). exists w.
  unfold check_visualization, try_except, bind. rewrite Hplot. split; reflexivity.
Qed.

Lemma check_network_connectivity_passes (w : world) :
  exists w1, check_network_connectivity env w = Normal true w1 /\ self w1 = self w.
Proof.
  destruct Hpass as (_ & _ & _ & _ & Hnet & _). exists w.
  unfold check_network_connectivity, try_except, bind. rewrite Hnet. split; reflexivity.
Qed.

Lemma run_security_simulation_passes (w : world) :
  exists w1, run_security_simulation env w = Normal true w1 /\ self w1 = self w.
Proof.
  destruct Hpass as (_ & _ & _ & _ & _ & (accuracy & Hsim & Hacc) & _).
  eexists. unfold run_security_simulation, try_except, bind. rewrite Hsim.
  unfold call, ret. run_prints.
  assert (Qle_bool accuracy (7 # 10) = false) as ->.
  { destruct (Qle_bool accuracy (7 # 10)) eqn:Hle; [|reflexivity].
    apply Qle_bool_iff in Hle. destruct (Qlt_not_le _ _ Hacc Hle). }
  split; reflexivity.
Qed.

(** On such a machine all six registered checks pass, whatever the version
    check and the environment check found. *)
Lemma run_all_checks_passes :
  yields (run_all_checks env) start true
    (advised env {| errors := []; warnings := []; success_count := 6; total_checks := 6 |}).
Proof.
  destruct (check_python_version_yields env) as [meets Hversion].
  unfold run_all_checks.
  eapply yields_bind; [eexists; reflexivity|intros ?; cbn [self]].
  eapply yields_bind; [eexists; reflexivity|intros ?; cbn [self]].
  eapply yields_bind; [apply Hversion|intros ?; cbn [self]].
  eapply yields_bind; [apply check_virtual_environment_yields|intros ?; cbn [self]].
  eapply yields_bind;
    [apply check_item_yields, check_file_permissions_passes|intros ?; cbn [self]].
  eapply yields_bind; [eexists; reflexivity|intros ?; cbn [self]].
  eapply yields_bind;
    [apply check_item_yields, check_essential_packages_passes|intros ?; cbn [self]].
  eapply yields_bind;
    [apply check_item_yields, check_data_manipulation_passes|intros ?; cbn [self]].
  eapply yields_bind;
    [apply check_item_yields, check_visualization_passes|intros ?; cbn [self]].
  eapply yields_bind; [eexists; reflexivity|intros ?; cbn [self]].
  eapply yields_bind;
    [apply check_item_yields, check_network_connectivity_passes|intros ?; cbn [self]].
  eapply yields_bind;
    [apply check_item_yields, run_security_simulation_passes|intros ?; cbn [self]].
  eapply yields_bind.
  { match goal with |- yields _ ?w _ _ =>
      destruct (print_summary_returns env w) as [before Hrun]
    end.
    - unfold advised, scored. destruct (any (venv_indicators env)); cbn; lia.
    - eexists. rewrite Hrun. reflexivity. }
  intros ?; cbn [self].
  eexists. unfold bind, get_self, ret. cbn [self].
  unfold advised, scored, start, init. destruct (any (venv_indicators env)); reflexivity.
Qed.

End AllPass.

(** C7.  [run_all_checks] calls the version check and the environment check
    directly.  The version check leaves the verifier as it was; the
    environment check leaves [total_checks], [success_count] and the error
    list as they were; a run that returns has counted six checks, not
    eight; and on a machine that passes the six registered checks the run
    ends with an empty error list and exit status 0 whatever the version
    check returned. *)
Theorem direct_checks_leave_counters (env : Env) :
  (forall w, exists b line,
     check_python_version env w =
       Normal b {| self := self w; stdout := stdout w ++ [line] |}) /\
  (forall w, exists w',
     check_virtual_environment env w = Normal true w' /\
     errors (self w') = errors (self w) /\
     success_count (self w') = success_count (self w) /\
     total_checks (self w') = total_checks (self w)) /\
  (forall w success w',
     run_all_checks env w = Normal success w' ->
     total_checks (self w') = total_checks (self w) + 6 /\
     success_count (self w') + length (errors (self w')) =
       success_count (self w) + length (errors (self w)) + 6) /\
  (registered_checks_pass env ->
     exists w',
       run_all_checks env start = Normal true w' /\
       errors (self w') = [] /\
       success_count (self w') = 6 /\
       total_checks (self w') = 6 /\
       run_script env = 0%Z).
Proof.
  split; [|split; [|split]].
  - intros w. apply check_python_version_quiet.
  - intros w. destruct (check_virtual_environment_yields env w) as [out Hrun].
    eexists. split; [exact Hrun|]. cbn [self]. apply advised_frame.
  - intros w success w' Hrun. exact (run_all_checks_counts env w success w' Hrun).
  - intros Hpass. destruct (run_all_checks_passes env Hpass) as [out Hrun].
    eexists. split; [exact Hrun|]. cbn [self].
    assert (run_script env = 0%Z) as Hexit.
    { destruct Hpass as (_ & _ & _ & _ & _ & _ & cwd & Hcwd).
      rewrite run_script_cases, Hrun, Hcwd. reflexivity. }
    unfold advised. destruct (any (venv_indicators env)); cbn; auto.
Qed.

Lemma direct_checks_leave_counters_witness :
  check_python_version (with_version (mkVersion 2 7 18) ready_env) start =
    Normal false
      {| self := init; stdout := ["❌ Python version: 2.7.18 (requires 3.10+)"] |} /\
  run_script (with_version (mkVersion 2 7 18) ready_env) = 0%Z.
Proof.
  split; [reflexivity|].
  destruct (proj2 (proj2 (proj2
              (direct_checks_leave_counters (with_version (mkVersion 2 7 18) ready_env)))))
    as (w' & _ & _ & _ & _ & Hexit).
  - repeat split; try reflexivity.
    + intros name _. exists (mkModule (Some "1.0")). reflexivity.
    + exists (93 # 100). split; reflexivity.
    + exists "/home/student". reflexivity.
  - exact Hexit.
Defined.

(** * Runs in any environment *)

(** ** How a sequence ends early *)

Lemma bind_raises {A B} (m : M A) (k : A -> M B) (w w' : world) (e : exn) :
  bind m k w = Raised e w' ->
  m w = Raised e w' \/ exists a w1, m w = Normal a w1 /\ k a w1 = Raised e w'.
Proof.
  unfold bind. destruct (m w) as [a w1|e1 w1]; intros H.
  - right. exists a, w1. split; [reflexivity|exact H].
  - left. injection H as -> ->. reflexivity.
Qed.

(** What [check_item] raises, its check function raised, and it is no
    error. *)
Lemma check_item_raised (d : string) (f : M bool) (w w' : world) (e : exn) :
  check_item d f w = Raised e w' ->
  is_Exception e = false /\
  f {| self := counted (self w); stdout := stdout w |} = Raised e w'.
Proof.
  intros H.
  destruct (f {| self := counted (self w); stdout := stdout w |}) as [[|] w1|e1 w1] eqn:Hf.
  - rewrite (check_item_returns_true d f w w1 Hf) in H. discriminate.
  - rewrite (check_item_returns_false d f w w1 Hf) in H. discriminate.
  - rewrite (check_item_raises d f w w1 e1 Hf) in H.
    destruct (is_Exception e1) eqn:He; [discriminate|].
    injection H as <- <-. split; [exact He|reflexivity].
Qed.

(** Where the exceptions of the six checks come from. *)
Lemma check_file_permissions_raised (env : Env) (w w' : world) (e : exn) :
  check_file_permissions env w = Raised e w' -> write_and_unlink env = Raises e.
Proof.
  unfold check_file_permissions, try_except, bind.
  destruct (write_and_unlink env) as [[]|e1]; cbn; [discriminate|].
  destruct (is_Exception e1); [discriminate|]. intros H. injection H as <- _. reflexivity.
Qed.

Lemma check_data_manipulation_raised (env : Env) (w w' : world) (e : exn) :
  check_data_manipulation env w = Raised e w' -> mean_sum_is_number env = Raises e.
Proof.
  unfold check_data_manipulation, try_except.
  destruct (mean_sum_is_number env) as [b|e1]; cbn; [discriminate|].
  destruct (is_Exception e1); [discriminate|]. intros H. injection H as <- _. reflexivity.
Qed.

Lemma check_visualization_raised (env : Env) (w w' : world) (e : exn) :
  check_visualization env w = Raised e w' -> plot_offscreen env = Raises e.
Proof.
  unfold check_visualization, try_except, bind.
  destruct (plot_offscreen env) as [[]|e1]; cbn; [discriminate|].
  destruct (is_Exception e1); [discriminate|]. intros H. injection H as <- _. reflexivity.
Qed.

Lemma check_network_connectivity_raised (env : Env) (w w' : world) (e : exn) :
  check_network_connectivity env w = Raised e w' -> requests_get_status env = Raises e.
Proof.
  unfold check_network_connectivity, try_except, bind.
  destruct (requests_get_status env) as [status|e1]; cbn; [discriminate|].
  destruct (is_Exception e1); [discriminate|]. intros H. injection H as <- _. reflexivity.
Qed.

Lemma run_security_simulation_raised (env : Env) (w w' : world) (e : exn) :
  run_security_simulation env w = Raised e w' -> simulated_accuracy env = Raises e.
Proof.
  unfold run_security_simulation, try_except, bind.
  destruct (simulated_accuracy env) as [accuracy|e1]; cbn; [discriminate|].
  destruct (is_Exception e1); [discriminate|]. intros H. injection H as <- _. reflexivity.
Qed.

Lemma check_package_import_raised (env : Env) (name : string) (w w' : world) (e : exn) :
  check_package_import env name w = Raised e w' ->
  import_module env name = Raises e /\ is_ImportError e = false.
Proof.
  unfold check_package_import, try_except, bind.
  destruct (import_module env name) as [m|e1]; cbn; [discriminate|].
  destruct (is_ImportError e1) eqn:He; [discriminate|].
  intros H. injection H as <- _. split; [reflexivity|exact He].
Qed.

Lemma probe_packages_raised (env : Env) (packages missing found : list string)
    (w w' : world) (e : exn) :
  probe_packages env packages missing found w = Raised e w' ->
  exists name, In name packages /\ import_module env name = Raises e /\
               is_ImportError e = false.
Proof.
  revert missing found w. induction packages as [|name rest IH]; intros missing found w H.
  - discriminate.
  - cbn [probe_packages] in H. apply bind_raises in H.
    destruct H as [H|(r & w1 & _ & H)].
    + apply check_package_import_raised in H. exists name. split; [left; reflexivity|exact H].
    + assert (exists m f w0, probe_packages env rest m f w0 = Raised e w') as (m & f & w0 & Hrest).
      { destruct r as [text|]; [destruct (truthy (Some text))|]; eauto. }
      destruct (IH m f w0 Hrest) as (n & Hn & Himp). exists n. split; [right; exact Hn|exact Himp].
Qed.

Lemma check_packages_raised (env : Env) (packages : list string) (w w' : world) (e : exn) :
  check_packages env packages w = Raised e w' ->
  exists name, In name packages /\ import_module env name = Raises e /\
               is_ImportError e = false.
Proof.
  unfold check_packages. intros H. apply bind_raises in H.
  destruct H as [H|(lists & w1 & _ & H)].
  - exact (probe_packages_raised env packages [] [] w w' e H).
  - unfold bind in H. rewrite !for_each_print in H. discriminate.
Qed.
(** ** A run never ends in an error *)

(** What ends a run early is no error, and it comes out of a library call
    of one of the six checks. *)
Lemma run_all_checks_raised (env : Env) (w w' : world) (e : exn) :
  run_all_checks env w = Raised e w' ->
  is_Exception e = false /\ raised_by env e.
Proof.
  intros H. unfold run_all_checks, raised_by in *.
  apply bind_raises in H. destruct H as [H|(? & w1 & _ & H)]; [discriminate|].
  apply bind_raises in H. destruct H as [H|(? & w2 & _ & H)]; [discriminate|].
  apply bind_raises in H. destruct H as [H|(? & w3 & _ & H)].
  { destruct (check_python_version_quiet env w2) as (b & line & Hv).
    rewrite Hv in H. discriminate. }
  apply bind_raises in H. destruct H as [H|(? & w4 & _ & H)].
  { destruct (check_virtual_environment_yields env w3) as (out & Hv).
    rewrite Hv in H. discriminate. }
  apply bind_raises in H. destruct H as [H|(? & w5 & _ & H)].
  { apply check_item_raised in H. destruct H as [He H].
    apply check_file_permissions_raised in H. auto. }
  apply bind_raises in H. destruct H as [H|(? & w6 & _ & H)]; [discriminate|].
  apply bind_raises in H. destruct H as [H|(? & w7 & _ & H)].
  { apply check_item_raised in H. destruct H as [He H].
    apply check_packages_raised in H. destruct H as (name & Hin & Himp & _).
    split; [exact He|]. right. left. exists name. auto. }
  apply bind_raises in H. destruct H as [H|(? & w8 & _ & H)].
  { apply check_item_raised in H. destruct H as [He H].
    apply check_data_manipulation_raised in H. auto. }
  apply bind_raises in H. destruct H as [H|(? & w9 & _ & H)].
  { apply check_item_raised in H. destruct H as [He H].
    apply check_visualization_raised in H. auto 6. }
  apply bind_raises in H. destruct H as [H|(? & w10 & _ & H)]; [discriminate|].
  apply bind_raises in H. destruct H as [H|(? & w11 & _ & H)].
  { apply check_item_raised in H. destruct H as [He H].
    apply check_network_connectivity_raised in H. auto 7. }
  apply bind_raises in H. destruct H as [H|(b12 & w12 & H12 & H)].
  { apply check_item_raised in H. destruct H as [He H].
    apply run_security_simulation_raised in H. auto 8. }
  apply bind_raises in H. destruct H as [H|(? & w13 & _ & H)]; [|discriminate].
  exfalso.
  pose proof (check_item_counts _ _ (run_security_simulation_quiet env) w11 b12 w12 H12)
    as [Htotal _].
  destruct (print_summary_returns env w12) as [before Hrun]; [lia|].
  rewrite Hrun in H. discriminate.
Qed.

(** X1.  [run_all_checks] lets no error out.  From every state, in every
    environment, it either returns or ends in an exception that is not
    derived from [Exception] and that one of the library calls of the six
    registered checks raised; so where those calls raise nothing but
    errors, the run returns. *)
Theorem run_all_checks_never_errors (env : Env) (w : world) :
  match run_all_checks env w with
  | Normal _ _ => True
  | Raised e _ => is_Exception e = false /\ raised_by env e
  end /\
  ((forall e, raised_by env e -> is_Exception e = true) ->
   exists success w', run_all_checks env w = Normal success w').
Proof.
  split.
  - destruct (run_all_checks env w) as [success w'|e w'] eqn:Hrun; [exact I|].
    exact (run_all_checks_raised env w w' e Hrun).
  - intros Honly. destruct (run_all_checks env w) as [success w'|e w'] eqn:Hrun.
    + exists success, w'. reflexivity.
    + destruct (run_all_checks_raised env w w' e Hrun) as [He Hby].
      rewrite (Honly e Hby) in He. discriminate.
Qed.

Lemma run_all_checks_never_errors_witness :
  exists success w',
    run_all_checks (with_network (Raises (Exception (OtherError "timed out"))) ready_env) start =
    Normal success w'.
Proof.
  apply (proj2 (run_all_checks_never_errors
                  (with_network (Raises (Exception (OtherError "timed out"))) ready_env) start)).
  intros e [H|[(name & _ & H)|[H|[H|[H|H]]]]]; try discriminate H.
  injection H as <-. reflexivity.
Defined.
(** ** What a run leaves in the verifier *)

(** [check_item] on a check that leaves the verifier alone acts on the
    counters and the error list as it does for one of the three fixed
    outcomes; the outcome is no raised error when the check lets none out. *)
Lemma check_item_outcome (d : string) (f : M bool) (w w' : world) (b : bool) :
  quiet f ->
  check_item d f w = Normal b w' ->
  exists o,
    b = passed (d, o) /\
    errors (self w') = errors (self w) ++ error_entry (d, o) /\
    success_count (self w') = success_count (self w) + (if passed (d, o) then 1 else 0) /\
    total_checks (self w') = total_checks (self w) + 1 /\
    warnings (self w') = warnings (self w) /\
    (swallows_errors f -> forall e, o <> raising e).
Proof.
  intros Hq H.
  pose proof (Hq {| self := counted (self w); stdout := stdout w |}) as Hself.
  destruct (f {| self := counted (self w); stdout := stdout w |}) as [[|] w1|e1 w1] eqn:Hf;
    cbn [self] in Hself.
  - rewrite (check_item_returns_true d f w w1 Hf) in H. injection H as <- <-.
    exists passes. cbn. rewrite Hself. cbn. rewrite app_nil_r.
    repeat split; try reflexivity. intros _ e. discriminate.
  - rewrite (check_item_returns_false d f w w1 Hf) in H. injection H as <- <-.
    exists fails. cbn. rewrite Hself. cbn.
    repeat split; try reflexivity; try lia. intros _ e. discriminate.
  - rewrite (check_item_raises d f w w1 e1 Hf) in H.
    destruct e1 as [err| | |]; cbn [is_Exception] in H; try discriminate.
    injection H as <- <-. exists (raising err). cbn. rewrite Hself. cbn.
    repeat split; try reflexivity; try lia.
    intros Hsw. specialize (Hsw _ _ _ Hf). discriminate.
Qed.

Lemma swallows_try_except {A} (body : M A) (handler : exn -> M A) :
  (forall e, swallows_errors (handler e)) ->
  swallows_errors (try_except body is_Exception handler).
Proof.
  intros Hh w e w' H. unfold try_except in H.
  destruct (body w) as [a w1|e1 w1]; [discriminate|].
  destruct (is_Exception e1) eqn:He1.
  - exact (Hh e1 w1 e w' H).
  - injection H as <- _. exact He1.
Qed.

Lemma swallows_ret {A} (a : A) : swallows_errors (ret a).
Proof. intros w e w' H. discriminate. Qed.

Lemma check_file_permissions_swallows (env : Env) :
  swallows_errors (check_file_permissions env).
Proof. apply swallows_try_except. intros e. apply swallows_ret. Qed.

Lemma check_data_manipulation_swallows (env : Env) :
  swallows_errors (check_data_manipulation env).
Proof. apply swallows_try_except. intros e. apply swallows_ret. Qed.

Lemma check_visualization_swallows (env : Env) :
  swallows_errors (check_visualization env).
Proof. apply swallows_try_except. intros e. apply swallows_ret. Qed.

Lemma check_network_connectivity_swallows (env : Env) :
  swallows_errors (check_network_connectivity env).
Proof. apply swallows_try_except. intros e. apply swallows_ret. Qed.

Lemma run_security_simulation_swallows (env : Env) :
  swallows_errors (run_security_simulation env).
Proof. apply swallows_try_except. intros e w e' w' H. discriminate. Qed.

(** The steps of a run that returned, one by one: the states in which the
    six registered checks start and end. *)
Lemma run_all_checks_steps (env : Env) (w w' : world) (success : bool) :
  run_all_checks env w = Normal success w' ->
  exists b1 b2 b3 b4 b5 b6 w1 w2 w2' w3 w4 w5 w5' w6 w7,
    self w1 = advised env (self w) /\
    check_item "File write permissions" (check_file_permissions env) w1 = Normal b1 w2 /\
    self w2' = self w2 /\
    check_item "Essential packages installed" (check_essential_packages env) w2' =
      Normal b2 w3 /\
    check_item "Data manipulation (NumPy/Pandas)" (check_data_manipulation env) w3 =
      Normal b3 w4 /\
    check_item "Visualization (Matplotlib)" (check_visualization env) w4 = Normal b4 w5 /\
    self w5' = self w5 /\
    check_item "Network connectivity (PyPI)" (check_network_connectivity env) w5' =
      Normal b5 w6 /\
    check_item "AI Security simulation" (run_security_simulation env) w6 = Normal b6 w7 /\
    print_summary env w7 = Normal tt w' /\
    success = (length (errors (self w')) =? 0).
Proof.
  intros H. pose proof (run_all_checks_returns env w w' success H) as Hsuccess.
  unfold run_all_checks in H.
  apply bind_normal in H. destruct H as ([] & u1 & H1 & H).
  apply bind_normal in H. destruct H as ([] & u2 & H2 & H).
  apply bind_normal in H. destruct H as (v & u3 & H3 & H).
  apply bind_normal in H. destruct H as (venv & u4 & H4 & H).
  apply bind_normal in H. destruct H as (b1 & u5 & H5 & H).
  apply bind_normal in H. destruct H as ([] & u6 & H6 & H).
  apply bind_normal in H. destruct H as (b2 & u7 & H7 & H).
  apply bind_normal in H. destruct H as (b3 & u8 & H8 & H).
  apply bind_normal in H. destruct H as (b4 & u9 & H9 & H).
  apply bind_normal in H. destruct H as ([] & u10 & H10 & H).
  apply bind_normal in H. destruct H as (b5 & u11 & H11 & H).
  apply bind_normal in H. destruct H as (b6 & u12 & H12 & H).
  apply bind_normal in H. destruct H as ([] & u13 & H13 & H).
  unfold bind, get_self, ret in H. injection H as _ <-.
  exists b1, b2, b3, b4, b5, b6, u4, u5, u6, u7, u8, u9, u10, u11, u12.
  pose proof (print_header_quiet w) as Q1. rewrite H1 in Q1.
  pose proof (print_section_quiet "Python Environment" u1) as Q2. rewrite H2 in Q2.
  destruct (check_python_version_quiet env u2) as (bv & line & Hv).
  rewrite Hv in H3. injection H3 as _ <-.
  destruct (check_virtual_environment_yields env
              {| self := self u2; stdout := stdout u2 ++ [line] |}) as (out & Henv).
  rewrite Henv in H4. injection H4 as _ <-.
  pose proof (print_section_quiet "Package Installation" u5) as Q6. rewrite H6 in Q6.
  pose proof (print_section_quiet "Connectivity and Functionality" u9) as Q10.
  rewrite H10 in Q10.
  cbn [self] in H5 |- *. rewrite Q2, Q1 in H5. rewrite Q2, Q1.
  repeat (split; [first [reflexivity|eassumption]|]).
  exact Hsuccess.
Qed.
(** X2.  A run that returns has treated its six registered checks as six
    fixed outcomes: the error list grew by the entries of the checks that
    did not pass, in the order of registration and at most one per check,
    [success_count] grew by the number of checks that passed, and only the
    package check can leave an entry that carries an error message. *)
Theorem run_all_checks_outcomes (env : Env) (w w' : world) (success : bool) :
  run_all_checks env w = Normal success w' ->
  exists outcomes : list fixed_outcome,
    length outcomes = 6 /\
    errors (self w') = errors (self w) ++ flat_map error_entry (combine registered outcomes) /\
    success_count (self w') =
      success_count (self w) + length (List.filter passed (combine registered outcomes)) /\
    (forall d e, In (d, raising e) (combine registered outcomes) ->
       d = "Essential packages installed").
Proof.
  intros H. apply run_all_checks_steps in H.
  destruct H as (b1 & b2 & b3 & b4 & b5 & b6 & w1 & w2 & w2' & w3 & w4 & w5 & w5' & w6 & w7 &
                 H0 & H1 & E2 & H2 & H3 & H4 & E5 & H5 & H6 & Hsum & _).
  apply check_item_outcome in H1; [|apply check_file_permissions_quiet].
  apply check_item_outcome in H2; [|apply check_packages_quiet].
  apply check_item_outcome in H3; [|apply check_data_manipulation_quiet].
  apply check_item_outcome in H4; [|apply check_visualization_quiet].
  apply check_item_outcome in H5; [|apply check_network_connectivity_quiet].
  apply check_item_outcome in H6; [|apply run_security_simulation_quiet].
  destruct H1 as (o1 & _ & He1 & Hs1 & _ & _ & Hn1).
  destruct H2 as (o2 & _ & He2 & Hs2 & _ & _ & _).
  destruct H3 as (o3 & _ & He3 & Hs3 & _ & _ & Hn3).
  destruct H4 as (o4 & _ & He4 & Hs4 & _ & _ & Hn4).
  destruct H5 as (o5 & _ & He5 & Hs5 & _ & _ & Hn5).
  destruct H6 as (o6 & _ & He6 & Hs6 & _ & _ & Hn6).
  specialize (Hn1 (check_file_permissions_swallows env)).
  specialize (Hn3 (check_data_manipulation_swallows env)).
  specialize (Hn4 (check_visualization_swallows env)).
  specialize (Hn5 (check_network_connectivity_swallows env)).
  specialize (Hn6 (run_security_simulation_swallows env)).
  pose proof (print_summary_quiet env w7) as Hq. rewrite Hsum in Hq.
  destruct (advised_frame env (self w)) as (Ae & As & _).
  exists [o1; o2; o3; o4; o5; o6]. split; [reflexivity|].
  rewrite Hq. cbn [registered combine flat_map List.filter].
  split; [|split].
  - rewrite He6, He5, E5, He4, He3, He2, E2, He1, H0, Ae.
    rewrite app_nil_r, <- !app_assoc. reflexivity.
  - rewrite Hs6, Hs5, E5, Hs4, Hs3, Hs2, E2, Hs1, H0, As.
    destruct (passed (_, o1)), (passed (_, o2)), (passed (_, o3)), (passed (_, o4)),
             (passed (_, o5)), (passed (_, o6)); cbn [length]; lia.
  - intros d e Hin. cbn [In] in Hin.
    destruct Hin as [Hin|[Hin|[Hin|[Hin|[Hin|[Hin|[]]]]]]]; injection Hin as Hd Ho.
    + destruct (Hn1 e Ho).
    + symmetry. exact Hd.
    + destruct (Hn3 e Ho).
    + destruct (Hn4 e Ho).
    + destruct (Hn5 e Ho).
    + destruct (Hn6 e Ho).
Qed.

Lemma run_all_checks_outcomes_witness :
  exists outcomes : list fixed_outcome,
    length outcomes = 6 /\
    flat_map error_entry (combine registered outcomes) = ["Network connectivity (PyPI)"].
Proof.
  destruct (run_all_checks_outcomes (with_network (Returns 503%Z) ready_env) start
              (final (run_all_checks (with_network (Returns 503%Z) ready_env) start)) false)
    as (outcomes & Hlen & Herr & _).
  - vm_compute. reflexivity.
  - exists outcomes. split; [exact Hlen|].
    apply (app_inv_head (errors (self start))). rewrite <- Herr. vm_compute. reflexivity.
Defined.

(** X3.  Warnings come from the environment check alone: a run that returns
    has added the virtual-environment warning when no indicator is present
    and nothing otherwise, so no failing check adds a warning. *)
Theorem run_all_checks_warns_once (env : Env) (w w' : world) (success : bool) :
  run_all_checks env w = Normal success w' ->
  warnings (self w') =
    warnings (self w) ++
    (if any (venv_indicators env) then []
     else ["Not running in virtual environment (recommended but not required)"]).
Proof.
  intros H. apply run_all_checks_steps in H.
  destruct H as (b1 & b2 & b3 & b4 & b5 & b6 & w1 & w2 & w2' & w3 & w4 & w5 & w5' & w6 & w7 &
                 H0 & H1 & E2 & H2 & H3 & H4 & E5 & H5 & H6 & Hsum & _).
  apply check_item_outcome in H1; [|apply check_file_permissions_quiet].
  apply check_item_outcome in H2; [|apply check_packages_quiet].
  apply check_item_outcome in H3; [|apply check_data_manipulation_quiet].
  apply check_item_outcome in H4; [|apply check_visualization_quiet].
  apply check_item_outcome in H5; [|apply check_network_connectivity_quiet].
  apply check_item_outcome in H6; [|apply run_security_simulation_quiet].
  destruct H1 as (o1 & _ & _ & _ & _ & Hw1 & _).
  destruct H2 as (o2 & _ & _ & _ & _ & Hw2 & _).
  destruct H3 as (o3 & _ & _ & _ & _ & Hw3 & _).
  destruct H4 as (o4 & _ & _ & _ & _ & Hw4 & _).
  destruct H5 as (o5 & _ & _ & _ & _ & Hw5 & _).
  destruct H6 as (o6 & _ & _ & _ & _ & Hw6 & _).
  pose proof (print_summary_quiet env w7) as Hq. rewrite Hsum in Hq.
  rewrite Hq, Hw6, Hw5, E5, Hw4, Hw3, Hw2, E2, Hw1, H0.
  unfold advised. destruct (any (venv_indicators env)); cbn [warnings].
  - rewrite app_nil_r. reflexivity.
  - reflexivity.
Qed.

Lemma run_all_checks_warns_once_witness :
  warnings (self (final (run_all_checks (with_network (Returns 503%Z) (without_venv ready_env))
                           start))) =
  ["Not running in virtual environment (recommended but not required)"].
Proof.
  apply (run_all_checks_warns_once
           (with_network (Returns 503%Z) (without_venv ready_env)) start _ false).
  vm_compute. reflexivity.
Defined.
(** ** The verdict of a run *)

(** With six checks counted, the verdict goes by the number of errors. *)
Lemma verdict_of_six (v : SetupVerifier) :
  total_checks v = 6 ->
  success_count v + length (errors v) = 6 ->
  verdict (success_rate v) =
    match length (errors v) with
    | 0 => top_tier
    | 1 => middle_tier
    | _ => bottom_tier
    end.
Proof.
  destruct v as [es ws sc tc]. cbn [total_checks success_count errors].
  intros -> Hsum. unfold success_rate. cbn [total_checks success_count].
  remember (length es) as n eqn:Hn. clear Hn.
  do 7 (destruct n as [|n]; [assert (sc = 6 - 0 \/ sc = 6 - 1 \/ sc = 6 - 2 \/ sc = 6 - 3 \/
                                     sc = 6 - 4 \/ sc = 6 - 5 \/ sc = 6 - 6) as Hsc by lia;
                             cbn in Hsc;
                             destruct Hsc as [->|[->|[->|[->|[->|[->| ->]]]]]];
                             try discriminate Hsum; vm_compute; reflexivity|]).
  lia.
Qed.

(** A run from a fresh verifier ends its output with the verdict for the
    number of errors it leaves, and the closing rule. *)
Lemma run_ends_with_verdict (env : Env) (success : bool) (w' : world) :
  run_all_checks env start = Normal success w' ->
  exists before,
    stdout w' =
      before ++
      [match length (errors (self w')) with
       | 0 => top_tier
       | 1 => middle_tier
       | _ => bottom_tier
       end; str_mul "=" 60].
Proof.
  intros H. pose proof (run_all_checks_counts env start success w' H) as [Htotal Hsum].
  apply run_all_checks_steps in H.
  destruct H as (b1 & b2 & b3 & b4 & b5 & b6 & w1 & w2 & w2' & w3 & w4 & w5 & w5' & w6 & w7 &
                 _ & _ & _ & _ & _ & _ & _ & _ & _ & Hsummary & _).
  pose proof (print_summary_quiet env w7) as Hq. rewrite Hsummary in Hq.
  destruct (print_summary_returns env w7) as [before Hrun].
  { rewrite <- Hq, Htotal. discriminate. }
  rewrite Hrun in Hsummary. injection Hsummary as <-. cbn [self stdout] in *.
  rewrite verdict_of_six by (cbn in Htotal, Hsum; lia).
  exists (stdout w7 ++ before). rewrite <- !app_assoc. reflexivity.
Qed.

(** X4.  The verdict of a run from a fresh verifier goes by the number of
    checks that failed: the line before the closing rule is the top-tier
    message when no check failed, the middle-tier message when exactly one
    did, and the bottom-tier message when two or more did; so the top tier
    is printed exactly when the run reports success. *)
Theorem run_verdict_by_errors (env : Env) (success : bool) (w' : world) :
  run_all_checks env start = Normal success w' ->
  exists before,
    stdout w' =
      before ++
      [match length (errors (self w')) with
       | 0 => top_tier
       | 1 => middle_tier
       | _ => bottom_tier
       end; str_mul "=" 60] /\
    (success = true <->
     match length (errors (self w')) with
     | 0 => top_tier
     | 1 => middle_tier
     | _ => bottom_tier
     end = top_tier).
Proof.
  intros H. destruct (run_ends_with_verdict env success w' H) as [before Hout].
  exists before. split; [exact Hout|].
  rewrite (run_all_checks_returns env start w' success H).
  destruct (length (errors (self w'))) as [|[|n]]; cbn.
  - split; reflexivity.
  - split; [discriminate|]. intros Habs. destruct (proj1 tiers_distinct). symmetry. exact Habs.
  - split; [discriminate|]. intros Habs.
    destruct (proj2 (proj2 tiers_distinct)). symmetry. exact Habs.
Qed.

Lemma run_verdict_by_errors_witness :
  exists before,
    stdout (final (run_all_checks (with_network (Returns 503%Z) ready_env) start)) =
    before ++ [middle_tier; str_mul "=" 60].
Proof.
  destruct (run_verdict_by_errors (with_network (Returns 503%Z) ready_env) false
              (final (run_all_checks (with_network (Returns 503%Z) ready_env) start)))
    as (before & Hout & _).
  - vm_compute. reflexivity.
  - exists before. exact Hout.
Defined.

(** X16.  The exit status against the verdict.  After a run from a fresh
    verifier whose closing information is printed, the script exits with 0
    exactly when the verdict printed is the top-tier one; under the
    middle-tier verdict, which tells the user to proceed, exactly one check
    has failed and the exit status is 1. *)
Theorem exit_status_by_tier (env : Env) (success : bool) (w' : world) (cwd : string) :
  run_all_checks env start = Normal success w' ->
  os_getcwd env = Returns cwd ->
  exists before tier,
    stdout w' = before ++ [tier; str_mul "=" 60] /\
    (run_script env = 0%Z <-> tier = top_tier) /\
    (tier = middle_tier <-> length (errors (self w')) = 1) /\
    (tier = middle_tier -> run_script env = 1%Z).
Proof.
  intros H Hcwd. destruct (run_ends_with_verdict env success w' H) as [before Hout].
  exists before. eexists. split; [exact Hout|].
  rewrite run_script_cases, H, Hcwd, (run_all_checks_returns env start w' success H).
  destruct tiers_distinct as (Htm & Hmb & Htb).
  destruct (length (errors (self w'))) as [|[|n]]; cbn [Nat.eqb].
  - split; [split; reflexivity|]. split.
    + split; [intros Habs; destruct (Htm Habs)|discriminate].
    + intros Habs. destruct (Htm Habs).
  - split; [split; [discriminate|intros Habs; destruct (Htm (eq_sym Habs))]|].
    split; [split; reflexivity|reflexivity].
  - split; [split; [discriminate|intros Habs; destruct (Htb (eq_sym Habs))]|].
    split; [|reflexivity].
    split; [intros Habs; destruct (Hmb (eq_sym Habs))|discriminate].
Qed.

Lemma exit_status_by_tier_witness :
  exists before tier,
    stdout (final (run_all_checks (with_network (Returns 503%Z) ready_env) start)) =
      before ++ [tier; str_mul "=" 60] /\
    tier = middle_tier /\
    run_script (with_network (Returns 503%Z) ready_env) = 1%Z.
Proof.
  destruct (exit_status_by_tier (with_network (Returns 503%Z) ready_env) false
              (final (run_all_checks (with_network (Returns 503%Z) ready_env) start))
              "/home/student")
    as (before & tier & Hout & _ & Hone & Hmiddle).
  - vm_compute. reflexivity.
  - reflexivity.
  - assert (tier = middle_tier) as Htier by (apply Hone; vm_compute; reflexivity).
    exists before, tier. split; [exact Hout|]. split; [exact Htier|]. exact (Hmiddle Htier).
Defined.
(** ** How the script ends *)

(** [main], by the way the run and [os.getcwd] end.  The run starts on the
    fresh verifier [main] creates. *)
Lemma main_cases (env : Env) (w : world) :
  main env w =
  match run_all_checks env {| self := init; stdout := stdout w |} with
  | Normal success w1 =>
      let told :=
        {| self := self w1;
           stdout := (stdout w1 ++ [newline +:+ "💡 Additional Information:"]) ++
                     ["   Python executable: " +:+ sys_executable env] |} in
      match os_getcwd env with
      | Returns cwd =>
          Raised (SystemExit (if success then 0 else 1)%Z)
            {| self := self w1;
               stdout := (stdout told ++ ["   Current directory: " +:+ cwd]) ++
                         ["   Platform: " +:+ sys_platform env] |}
      | Raises KeyboardInterrupt =>
          Raised (SystemExit 1)
            {| self := self w1;
               stdout := stdout told ++
                         [newline +:+ newline +:+ "⚠️  Verification interrupted by user."] |}
      | Raises (Exception err) =>
          Raised (SystemExit 1)
            {| self := self w1;
               stdout := stdout told ++
                         [newline +:+ newline +:+ "❌ Unexpected error during verification: " +:+
                          str (Exception err)] |}
      | Raises e => Raised e told
      end
  | Raised KeyboardInterrupt w1 =>
      Raised (SystemExit 1)
        {| self := self w1;
           stdout := stdout w1 ++
                     [newline +:+ newline +:+ "⚠️  Verification interrupted by user."] |}
  | Raised (Exception err) w1 =>
      Raised (SystemExit 1)
        {| self := self w1;
           stdout := stdout w1 ++
                     [newline +:+ newline +:+ "❌ Unexpected error during verification: " +:+
                      str (Exception err)] |}
  | Raised e w1 => Raised e w1
  end.
Proof.
  unfold main, try_except2. unfold bind at 1. unfold set_self at 1. cbn [self stdout].
  unfold bind at 1.
  destruct (run_all_checks env {| self := init; stdout := stdout w |}) as [success w1|e w1].
  - unfold bind, call. run_prints.
    destruct (os_getcwd env) as [cwd|[err| | |]]; reflexivity.
  - destruct e as [err| | |]; reflexivity.
Qed.

(** X5.  The script never runs off the end of [main] and never ends in an
    error or a bare interrupt.  Whatever the environment, [main] ends in
    [SystemExit] with code 0 or 1, or in an exception outside the
    [Exception] hierarchy, other than [KeyboardInterrupt], that a library
    call of a check or [os.getcwd] raised and that passes through
    unchanged. *)
Theorem main_always_exits (env : Env) (w : world) :
  exists e w',
    main env w = Raised e w' /\
    (e = SystemExit 0 \/ e = SystemExit 1 \/
     (is_Exception e = false /\ e <> KeyboardInterrupt /\
      (raised_by env e \/ os_getcwd env = Raises e))).
Proof.
  rewrite main_cases.
  destruct (run_all_checks env {| self := init; stdout := stdout w |})
    as [success w1|e w1] eqn:Hrun.
  - cbv zeta. destruct (os_getcwd env) as [cwd|[err| |code|msg]] eqn:Hcwd;
      eexists; eexists; (split; [reflexivity|]).
    + destruct success; auto.
    + auto.
    + auto.
    + right. right. split; [reflexivity|]. split; [discriminate|]. right. reflexivity.
    + right. right. split; [reflexivity|]. split; [discriminate|]. right. reflexivity.
  - destruct (run_all_checks_raised env _ _ _ Hrun) as [He Hby].
    destruct e as [err| |code|msg]; eexists; eexists; (split; [reflexivity|]).
    + discriminate He.
    + auto.
    + right. right. split; [reflexivity|]. split; [discriminate|]. left. exact Hby.
    + right. right. split; [reflexivity|]. split; [discriminate|]. left. exact Hby.
Qed.

(** X6.  What the script prints last.  After a run that returned it prints
    the three lines of additional information and exits with 0 or 1 by the
    run's result.  When the user's interrupt ends the run it prints the
    interruption line and exits with 1, with neither summary nor additional
    information after it.  When [os.getcwd] fails with an error, the line
    for the unexpected error carries the error's message and the exit
    status is 1; the errors of the checks never reach that handler. *)
Theorem main_last_lines (env : Env) (w : world) :
  (forall success w1 cwd,
     run_all_checks env {| self := init; stdout := stdout w |} = Normal success w1 ->
     os_getcwd env = Returns cwd ->
     main env w =
     Raised (SystemExit (if success then 0 else 1)%Z)
       {| self := self w1;
          stdout := stdout w1 ++
            [newline +:+ "💡 Additional Information:";
             "   Python executable: " +:+ sys_executable env;
             "   Current directory: " +:+ cwd;
             "   Platform: " +:+ sys_platform env] |}) /\
  (forall w1,
     run_all_checks env {| self := init; stdout := stdout w |} = Raised KeyboardInterrupt w1 ->
     main env w =
     Raised (SystemExit 1)
       {| self := self w1;
          stdout := stdout w1 ++
            [newline +:+ newline +:+ "⚠️  Verification interrupted by user."] |}) /\
  (forall success w1 err,
     run_all_checks env {| self := init; stdout := stdout w |} = Normal success w1 ->
     os_getcwd env = Raises (Exception err) ->
     main env w =
     Raised (SystemExit 1)
       {| self := self w1;
          stdout := stdout w1 ++
            [newline +:+ "💡 Additional Information:";
             "   Python executable: " +:+ sys_executable env;
             newline +:+ newline +:+ "❌ Unexpected error during verification: " +:+
             str (Exception err)] |}) /\
  (forall err w1,
     run_all_checks env {| self := init; stdout := stdout w |} <> Raised (Exception err) w1).
Proof.
  split; [|split; [|split]].
  - intros success w1 cwd Hrun Hcwd. rewrite main_cases, Hrun, Hcwd. cbn [stdout].
    rewrite <- !app_assoc. reflexivity.
  - intros w1 Hrun. rewrite main_cases, Hrun. reflexivity.
  - intros success w1 err Hrun Hcwd. rewrite main_cases, Hrun, Hcwd. cbn [stdout].
    rewrite <- !app_assoc. reflexivity.
  - intros err w1 Hrun. apply run_all_checks_raised in Hrun. destruct Hrun as [He _].
    discriminate He.
Qed.

Lemma main_last_lines_witness :
  main (with_network (Raises KeyboardInterrupt) ready_env) start =
  Raised (SystemExit 1)
    {| self := self (final (run_all_checks (with_network (Raises KeyboardInterrupt) ready_env)
                              start));
       stdout := stdout (final (run_all_checks (with_network (Raises KeyboardInterrupt) ready_env)
                                  start)) ++
                 [newline +:+ newline +:+ "⚠️  Verification interrupted by user."] |}.
Proof.
  apply (proj1 (proj2 (main_last_lines (with_network (Raises KeyboardInterrupt) ready_env)
                         start))).
  vm_compute. reflexivity.
Defined.
(** ** Imports that fail with another error *)

Lemma check_package_import_settled (env : Env) (name : string) (w : world) :
  import_settled env name ->
  exists r, check_package_import env name w = Normal r w.
Proof.
  unfold import_settled, check_package_import, try_except, bind.
  destruct (import_module env name) as [m|e]; cbn.
  - intros _. eexists. reflexivity.
  - intros ->. eexists. reflexivity.
Qed.

Lemma probe_packages_stops (env : Env) (before : list string) (name : string)
    (after missing found : list string) (e : exn) (w : world) :
  (forall n, In n before -> import_settled env n) ->
  import_module env name = Raises e ->
  is_ImportError e = false ->
  probe_packages env (before ++ name :: after) missing found w = Raised e w.
Proof.
  intros Hbefore Himp He. revert missing found.
  induction before as [|n rest IH]; intros missing found.
  - cbn [app probe_packages]. unfold bind, check_package_import, try_except, bind.
    rewrite Himp. cbn. rewrite He. reflexivity.
  - cbn [app probe_packages]. unfold bind at 1.
    destruct (check_package_import_settled env n w (Hbefore n (or_introl eq_refl))) as [r ->].
    assert (forall m f, probe_packages env (rest ++ name :: after) m f w = Raised e w) as Hrest.
    { intros m f. apply IH. intros k Hk. apply Hbefore. right. exact Hk. }
    destruct r as [text|]; [destruct (truthy (Some text))|]; apply Hrest.
Qed.

(** X7.  An import that fails with anything but [ImportError] ends the
    package check on the spot.  When the imports of the names before it are
    settled, [check_essential_packages] (here with the list as a parameter)
    ends in that exception and prints no status line, not even for the
    names that were imported; when the exception is an error, [check_item]
    turns it into the one entry "{description} - {message}" and returns
    false. *)
Theorem check_packages_stops_at_error (env : Env) (before : list string) (name : string)
    (after : list string) (e : exn) (w : world) :
  (forall n, In n before -> import_settled env n) ->
  import_module env name = Raises e ->
  is_ImportError e = false ->
  check_packages env (before ++ name :: after) w = Raised e w /\
  (is_Exception e = true ->
   forall d,
     check_item d (check_packages env (before ++ name :: after)) w =
     Normal false
       {| self := with_error (d +:+ " - " +:+ str e) (counted (self w));
          stdout := stdout w ++ ["❌ " +:+ d +:+ " - Error: " +:+ str e] |}).
Proof.
  intros Hbefore Himp He.
  assert (forall w0, check_packages env (before ++ name :: after) w0 = Raised e w0) as Hraise.
  { intros w0. unfold check_packages. apply bind_raised.
    apply probe_packages_stops; assumption. }
  split; [apply Hraise|].
  intros Herr d.
  rewrite (check_item_raises d _ w _ e (Hraise _)), Herr. reflexivity.
Qed.

Lemma check_packages_stops_at_error_witness :
  check_item "Essential packages installed"
    (check_essential_packages
       (with_import (broken_import "pandas" (OtherError "numpy.dtype size changed")) ready_env))
    start =
  Normal false
    {| self := {| errors := ["Essential packages installed - numpy.dtype size changed"];
                  warnings := []; success_count := 0; total_checks := 1 |};
       stdout := ["❌ Essential packages installed - Error: numpy.dtype size changed"] |}.
Proof.
  destruct (check_packages_stops_at_error
              (with_import (broken_import "pandas" (OtherError "numpy.dtype size changed"))
                 ready_env)
              ["numpy"] "pandas" ["matplotlib"; "requests"; "jupyter"]
              (Exception (OtherError "numpy.dtype size changed")) start) as [_ Hitem].
  - intros n [<-|[]]. exact I.
  - reflexivity.
  - reflexivity.
  - exact (Hitem eq_refl "Essential packages installed").
Defined.
(** ** Checks that handle their own errors *)

(** A check that returns or raises without touching the state, and lets no
    error out, is reported plainly. *)
Lemma inert_reports_plainly (d : string) (f : M bool) :
  (forall w, match f w with
             | Normal _ w' => w' = w
             | Raised e w' => is_Exception e = false /\ w' = w
             end) ->
  reports_plainly d f.
Proof.
  intros Hf w. specialize (Hf {| self := counted (self w); stdout := stdout w |}).
  destruct (f {| self := counted (self w); stdout := stdout w |}) as [[|] w1|e w1] eqn:Hrun.
  - rewrite (check_item_returns_true d f w w1 Hrun). subst w1. reflexivity.
  - rewrite (check_item_returns_false d f w w1 Hrun). subst w1. reflexivity.
  - destruct Hf as [He ->]. rewrite (check_item_raises d f w _ e Hrun), He.
    split; [exact He|reflexivity].
Qed.

(** X8.  The four checks that catch every error themselves and print
    nothing are reported plainly: the entry [check_item] records for a
    failed file, data, plotting or network check is the bare description,
    whatever went wrong inside the check, and the line with "- Error:" is
    never printed for them.  So a write that fails with an error and a
    request that fails with an error both leave only the description. *)
Theorem handled_checks_reported_plainly (env : Env) (d : string) :
  reports_plainly d (check_file_permissions env) /\
  reports_plainly d (check_data_manipulation env) /\
  reports_plainly d (check_visualization env) /\
  reports_plainly d (check_network_connectivity env) /\
  (forall err w,
     write_and_unlink env = Raises (Exception err) ->
     check_item d (check_file_permissions env) w =
     Normal false
       {| self := with_error d (counted (self w)); stdout := stdout w ++ ["❌ " +:+ d] |}) /\
  (forall err w,
     requests_get_status env = Raises (Exception err) ->
     check_item d (check_network_connectivity env) w =
     Normal false
       {| self := with_error d (counted (self w)); stdout := stdout w ++ ["❌ " +:+ d] |}).
Proof.
  split; [|split; [|split; [|split; [|split]]]].
  - apply inert_reports_plainly. intros w.
    unfold check_file_permissions, try_except, bind.
    destruct (write_and_unlink env) as [[]|e]; cbn; [reflexivity|].
    destruct (is_Exception e) eqn:He; cbn; auto.
  - apply inert_reports_plainly. intros w.
    unfold check_data_manipulation, try_except.
    destruct (mean_sum_is_number env) as [b|e]; cbn; [reflexivity|].
    destruct (is_Exception e) eqn:He; cbn; auto.
  - apply inert_reports_plainly. intros w.
    unfold check_visualization, try_except, bind.
    destruct (plot_offscreen env) as [[]|e]; cbn; [reflexivity|].
    destruct (is_Exception e) eqn:He; cbn; auto.
  - apply inert_reports_plainly. intros w.
    unfold check_network_connectivity, try_except, bind.
    destruct (requests_get_status env) as [status|e]; cbn; [reflexivity|].
    destruct (is_Exception e) eqn:He; cbn; auto.
  - intros err w Hwrite.
    apply (check_item_returns_false d _ w {| self := counted (self w); stdout := stdout w |}).
    unfold check_file_permissions, try_except, bind. rewrite Hwrite. reflexivity.
  - intros err w Hget.
    apply (check_item_returns_false d _ w {| self := counted (self w); stdout := stdout w |}).
    unfold check_network_connectivity, try_except, bind. rewrite Hget. reflexivity.
Qed.

Lemma handled_checks_reported_plainly_witness :
  check_item "File write permissions"
    (check_file_permissions
       (with_filesystem (Raises (Exception (OtherError "[Errno 13] Permission denied")))
          ready_env)) start =
  Normal false
    {| self := {| errors := ["File write permissions"]; warnings := [];
                  success_count := 0; total_checks := 1 |};
       stdout := ["❌ File write permissions"] |}.
Proof.
  apply (proj1 (proj2 (proj2 (proj2 (proj2
           (handled_checks_reported_plainly
              (with_filesystem (Raises (Exception (OtherError "[Errno 13] Permission denied")))
                 ready_env)
              "File write permissions")))))
           (OtherError "[Errno 13] Permission denied") start).
  reflexivity.
Defined.

(** ** The network check *)

(** X9.  The network check passes for status 200 and nothing else.
    Reported through [check_item], it is counted as a success exactly when
    the request returns with status 200; any other status and any error of
    the request give the same failure, and only an exception that is no
    error leaves the check. *)
Theorem network_check_needs_200 (env : Env) (d : string) (w : world) :
  ((exists w', check_item d (check_network_connectivity env) w = Normal true w') <->
   requests_get_status env = Returns 200%Z) /\
  ((exists w', check_item d (check_network_connectivity env) w = Normal false w') <->
   (exists status, requests_get_status env = Returns status /\ status <> 200%Z) \/
   (exists err, requests_get_status env = Raises (Exception err))) /\
  (forall w', check_item d (check_network_connectivity env) w = Normal false w' ->
     w' = {| self := with_error d (counted (self w)); stdout := stdout w ++ ["❌ " +:+ d] |}).
Proof.
  assert (check_network_connectivity env
            {| self := counted (self w); stdout := stdout w |} =
          match requests_get_status env with
          | Returns status =>
              Normal (status =? 200)%Z {| self := counted (self w); stdout := stdout w |}
          | Raises e =>
              if is_Exception e
              then Normal false {| self := counted (self w); stdout := stdout w |}
              else Raised e {| self := counted (self w); stdout := stdout w |}
          end) as Hcheck.
  { unfold check_network_connectivity, try_except, bind.
    destruct (requests_get_status env) as [status|e]; cbn; [reflexivity|].
    destruct (is_Exception e); reflexivity. }
  destruct (requests_get_status env) as [status|e] eqn:Hget.
  - destruct (status =? 200)%Z eqn:Hs.
    + apply Z.eqb_eq in Hs. subst status.
      rewrite (check_item_returns_true d _ w _ Hcheck).
      split; [|split].
      * split; [reflexivity|]. intros _. eexists. reflexivity.
      * split; [intros [w' H]; discriminate|].
        intros [(status & H & Hne)|(err & H)]; [|discriminate].
        injection H as <-. destruct Hne. reflexivity.
      * intros w' H. discriminate.
    + apply Z.eqb_neq in Hs.
      rewrite (check_item_returns_false d _ w _ Hcheck).
      split; [|split].
      * split; [intros [w' H]; discriminate|]. intros H. injection H as ->.
        destruct Hs. reflexivity.
      * split; [|intros _; eexists; reflexivity].
        intros _. left. exists status. split; [reflexivity|exact Hs].
      * intros w' H. injection H as <-. reflexivity.
  - destruct e as [err| |code|msg]; cbn [is_Exception] in Hcheck.
    + rewrite (check_item_returns_false d _ w _ Hcheck).
      split; [|split].
      * split; [intros [w' H]; discriminate|discriminate].
      * split; [|intros _; eexists; reflexivity].
        intros _. right. exists err. reflexivity.
      * intros w' H. injection H as <-. reflexivity.
    + rewrite (check_item_raises d _ w _ _ Hcheck). cbn [is_Exception].
      split; [|split].
      * split; [intros [w' H]; discriminate|discriminate].
      * split; [intros [w' H]; discriminate|].
        intros [(status & H & _)|(err & H)]; discriminate.
      * intros w' H. discriminate.
    + rewrite (check_item_raises d _ w _ _ Hcheck). cbn [is_Exception].
      split; [|split].
      * split; [intros [w' H]; discriminate|discriminate].
      * split; [intros [w' H]; discriminate|].
        intros [(status & H & _)|(err & H)]; discriminate.
      * intros w' H. discriminate.
    + rewrite (check_item_raises d _ w _ _ Hcheck). cbn [is_Exception].
      split; [|split].
      * split; [intros [w' H]; discriminate|discriminate].
      * split; [intros [w' H]; discriminate|].
        intros [(status & H & _)|(err & H)]; discriminate.
      * intros w' H. discriminate.
Qed.

Lemma network_check_needs_200_witness :
  exists w',
    check_item "Network connectivity (PyPI)"
      (check_network_connectivity (with_network (Returns 204%Z) ready_env)) start =
    Normal false w'.
Proof.
  apply (proj2 (proj1 (proj2 (network_check_needs_200 (with_network (Returns 204%Z) ready_env)
                                "Network connectivity (PyPI)" start)))).
  left. exists 204%Z. split; [reflexivity|discriminate].
Defined.
(** ** The simulation *)

(** X10.  The simulation passes only above 70% accuracy.  When the accuracy
    is computed, [run_security_simulation] prints it and returns true
    exactly when it is greater than 0.7, so an accuracy of exactly 70% does
    not pass.  When the computation fails with an error, it prints the
    error's message and returns false, and [check_item] then records the
    bare description.  Either way the verifier is left alone and exactly
    one line is printed by the check. *)
Theorem simulation_threshold_is_strict (env : Env) (w : world) :
  (forall accuracy,
     simulated_accuracy env = Returns accuracy ->
     exists b,
       run_security_simulation env w =
         Normal b
           {| self := self w;
              stdout := stdout w ++
                ["   Security simulation accuracy: " +:+ format_percent2 env accuracy] |} /\
       (b = true <-> (7 # 10 < accuracy)%Q) /\
       ((accuracy == 7 # 10)%Q -> b = false)) /\
  (forall err,
     simulated_accuracy env = Raises (Exception err) ->
     run_security_simulation env w =
       Normal false
         {| self := self w;
            stdout := stdout w ++ ["   Simulation error: " +:+ str (Exception err)] |} /\
     forall d,
       check_item d (run_security_simulation env) w =
       Normal false
         {| self := with_error d (counted (self w));
            stdout := stdout w ++
              ["   Simulation error: " +:+ str (Exception err); "❌ " +:+ d] |}).
Proof.
  split.
  - intros accuracy Hsim. exists (negb (Qle_bool accuracy (7 # 10))).
    split; [|split].
    + unfold run_security_simulation, try_except, bind. rewrite Hsim. reflexivity.
    + destruct (Qle_bool accuracy (7 # 10)) eqn:Hle; cbn [negb].
      * apply Qle_bool_iff in Hle. split; [discriminate|].
        intros Hlt. destruct (Qlt_not_le _ _ Hlt Hle).
      * split; [|reflexivity]. intros _. apply Qnot_le_lt. intros Hle'.
        apply Qle_bool_iff in Hle'. rewrite Hle' in Hle. discriminate.
    + intros Heq. assert (Qle_bool accuracy (7 # 10) = true) as ->; [|reflexivity].
      apply Qle_bool_iff. rewrite Heq. apply Qle_refl.
  - intros err Hsim.
    assert (forall w0, run_security_simulation env w0 =
                       Normal false
                         {| self := self w0;
                            stdout := stdout w0 ++
                              ["   Simulation error: " +:+ str (Exception err)] |}) as Hrun.
    { intros w0. unfold run_security_simulation, try_except, bind. rewrite Hsim. reflexivity. }
    split; [apply Hrun|]. intros d.
    rewrite (check_item_returns_false d _ w _ (Hrun _)). cbn [self stdout].
    rewrite <- app_assoc. reflexivity.
Qed.

Lemma simulation_threshold_is_strict_witness :
  exists w',
    run_security_simulation (with_accuracy (Returns (70 # 100)) ready_env) start =
    Normal false w'.
Proof.
  destruct (proj1 (simulation_threshold_is_strict
                     (with_accuracy (Returns (70 # 100)) ready_env) start)
              (70 # 100) eq_refl) as (b & Hrun & _ & Hexact).
  rewrite Hrun, Hexact; [eexists; reflexivity|]. reflexivity.
Defined.
(** ** The name of the virtual environment *)

(** X11.  Which environment [check_virtual_environment] names.  The value
    of VIRTUAL_ENV wins over that of CONDA_DEFAULT_ENV; the name printed is
    the last component of that value; with neither variable set but another
    indicator present, and when the value is the text "Unknown" itself, the
    name printed is "Unknown".  In each case one line is printed, the check
    returns true and the verifier is left alone. *)
Theorem venv_name_precedence (env : Env) (w : world) :
  (forall p,
     os_environ env !! "VIRTUAL_ENV" = Some p -> p <> "Unknown" ->
     check_virtual_environment env w =
     Normal true
       {| self := self w;
          stdout := stdout w ++ ["✅ Virtual environment active: " +:+ Path_name env p] |}) /\
  (forall c,
     os_environ env !! "VIRTUAL_ENV" = None ->
     os_environ env !! "CONDA_DEFAULT_ENV" = Some c -> c <> "Unknown" ->
     check_virtual_environment env w =
     Normal true
       {| self := self w;
          stdout := stdout w ++ ["✅ Virtual environment active: " +:+ Path_name env c] |}) /\
  (os_environ env !! "VIRTUAL_ENV" = None ->
   os_environ env !! "CONDA_DEFAULT_ENV" = None ->
   any (venv_indicators env) = true ->
   check_virtual_environment env w =
   Normal true
     {| self := self w;
        stdout := stdout w ++ ["✅ Virtual environment active: Unknown"] |}) /\
  (os_environ env !! "VIRTUAL_ENV" = Some "Unknown" ->
   check_virtual_environment env w =
   Normal true
     {| self := self w;
        stdout := stdout w ++ ["✅ Virtual environment active: Unknown"] |}).
Proof.
  assert (forall v, os_environ env !! "VIRTUAL_ENV" = Some v ->
                    any (venv_indicators env) = true) as Hvirtual.
  { intros v Hv. unfold any, venv_indicators. cbn [existsb].
    rewrite Hv. rewrite bool_decide_eq_true_2 by (eexists; reflexivity). reflexivity. }
  assert (forall v, os_environ env !! "CONDA_DEFAULT_ENV" = Some v ->
                    any (venv_indicators env) = true) as Hconda.
  { intros v Hv. unfold any, venv_indicators. cbn [existsb].
    rewrite Hv. rewrite (bool_decide_eq_true_2 (is_Some (Some v))) by (eexists; reflexivity).
    apply orb_true_r. }
  split; [|split; [|split]].
  - intros p Hp Hne. unfold check_virtual_environment.
    rewrite (Hvirtual p Hp), Hp. cbv [from_option id].
    apply String.eqb_neq in Hne. rewrite Hne. reflexivity.
  - intros c Hv Hc Hne. unfold check_virtual_environment.
    rewrite (Hconda c Hc), Hv, Hc. cbv [from_option id].
    apply String.eqb_neq in Hne. rewrite Hne. reflexivity.
  - intros Hv Hc Hany. unfold check_virtual_environment.
    rewrite Hany, Hv, Hc. reflexivity.
  - intros Hv. unfold check_virtual_environment.
    rewrite (Hvirtual _ Hv), Hv. reflexivity.
Qed.

Lemma venv_name_precedence_witness :
  check_virtual_environment ready_env start =
  Normal true {| self := init; stdout := ["✅ Virtual environment active: .venv"] |}.
Proof.
  apply (proj1 (venv_name_precedence ready_env start) "/home/student/.venv").
  - reflexivity.
  - discriminate.
Defined.

(** X12.  The warning about the virtual environment is recorded exactly
    when all four indicators are absent: neither VIRTUAL_ENV nor
    CONDA_DEFAULT_ENV is set (whatever their values would be, an empty one
    included), [sys] has no [real_prefix], and [sys.base_prefix] is missing
    or equal to [sys.prefix]. *)
Theorem venv_warning_iff (env : Env) (w : world) :
  warnings (self (final (check_virtual_environment env w))) =
    warnings (self w) ++ ["Not running in virtual environment (recommended but not required)"]
  <->
  os_environ env !! "VIRTUAL_ENV" = None /\
  os_environ env !! "CONDA_DEFAULT_ENV" = None /\
  sys_has_real_prefix env = false /\
  (sys_base_prefix env = None \/ sys_base_prefix env = Some (sys_prefix env)).
Proof.
  assert (any (venv_indicators env) = false <->
          os_environ env !! "VIRTUAL_ENV" = None /\
          os_environ env !! "CONDA_DEFAULT_ENV" = None /\
          sys_has_real_prefix env = false /\
          (sys_base_prefix env = None \/ sys_base_prefix env = Some (sys_prefix env))) as Hany.
  { unfold any, venv_indicators. cbn [existsb]. rewrite orb_false_r, !orb_false_iff.
    rewrite !bool_decide_eq_false, <- !eq_None_not_Some.
    destruct (sys_base_prefix env) as [base|].
    - rewrite negb_false_iff, String.eqb_eq. split.
      + intros (H1 & H2 & H3 & ->). auto.
      + intros (H1 & H2 & H3 & [H4|H4]); [discriminate|]. injection H4 as ->. auto.
    - split; intros (H1 & H2 & H3 & _); auto. }
  rewrite <- Hany. unfold check_virtual_environment.
  destruct (any (venv_indicators env)); cbn.
  - split; [|discriminate]. intros H. symmetry in H. destruct (app_one_neq _ _ H).
  - split; reflexivity.
Qed.

Lemma venv_warning_iff_witness :
  warnings (self (final (check_virtual_environment (without_venv ready_env) start))) =
  ["Not running in virtual environment (recommended but not required)"].
Proof.
  apply (proj2 (venv_warning_iff (without_venv ready_env) start)).
  repeat split; try reflexivity. right. reflexivity.
Defined.
(** ** The version check against its docstring *)

(** X13.  Where the version check and its docstring part.  The check never
    accepts a version below 3.10; for major version 3 it accepts exactly
    the versions from 3.10 on; and the versions from 3.10 on that it
    rejects are exactly those with a major number above 3 and a minor
    number below 10. *)
Theorem check_python_version_against_docstring (env : Env) (w : world) :
  exists b line,
    check_python_version env w =
      Normal b {| self := self w; stdout := stdout w ++ [line] |} /\
    (b = true -> is_3_10_plus (sys_version_info env) = true) /\
    (major (sys_version_info env) = 3%Z -> b = is_3_10_plus (sys_version_info env)) /\
    (b = false /\ is_3_10_plus (sys_version_info env) = true <->
     (3 < major (sys_version_info env))%Z /\ (minor (sys_version_info env) < 10)%Z).
Proof.
  unfold check_python_version, is_3_10_plus.
  destruct (sys_version_info env) as [ma mi mc]. cbn [major minor micro].
  assert (forall x, ((3 <? x)%Z || ((x =? 3)%Z && (10 <=? mi)%Z))%bool = true <->
                    (3 < x \/ (x = 3 /\ 10 <= mi))%Z) as Hdoc.
  { intros x. rewrite orb_true_iff, andb_true_iff, Z.ltb_lt, Z.eqb_eq, Z.leb_le. reflexivity. }
  destruct ((3 <=? ma)%Z && (10 <=? mi)%Z)%bool eqn:Hc.
  - apply andb_true_iff in Hc. destruct Hc as [H3 H10]. apply Z.leb_le in H3, H10.
    exists true. eexists. split; [reflexivity|].
    assert (((3 <? ma)%Z || ((ma =? 3)%Z && (10 <=? mi)%Z))%bool = true) as Hd
      by (apply Hdoc; lia).
    split; [intros _; exact Hd|]. split; [intros _; symmetry; exact Hd|].
    split; [intros [Hb _]; discriminate Hb|lia].
  - apply andb_false_iff in Hc. rewrite !Z.leb_gt in Hc.
    exists false. eexists. split; [reflexivity|].
    split; [discriminate|]. split.
    + intros Hma. destruct ((3 <? ma)%Z || ((ma =? 3)%Z && (10 <=? mi)%Z))%bool eqn:Hd;
        [|reflexivity].
      apply Hdoc in Hd. lia.
    + split.
      * intros [_ Hd]. apply Hdoc in Hd. lia.
      * intros H. split; [reflexivity|]. apply Hdoc. lia.
Qed.

Lemma check_python_version_against_docstring_witness :
  exists b line,
    check_python_version (with_version (mkVersion 3 9 18) ready_env) start =
      Normal b {| self := init; stdout := [line] |} /\
    b = false.
Proof.
  destruct (check_python_version_against_docstring (with_version (mkVersion 3 9 18) ready_env)
              start) as (b & line & Hrun & _ & Hthree & _).
  exists b, line. split; [exact Hrun|]. exact (Hthree eq_refl).
Defined.
(** ** What the summary lists *)

(** X14.  What the summary prints once a check has been counted: the
    banner, the line with the counts and the rate, then the warnings, each
    on a bullet line of its own in the order they were recorded and under a
    line with their number, or nothing at all when there is none; then the
    errors in the same way, or the line that says that no errors were found;
    then the verdict between two rules. *)
Theorem print_summary_lists (env : Env) (w : world) :
  total_checks (self w) <> 0 ->
  print_summary env w =
  Normal tt
    {| self := self w;
       stdout := stdout w ++
         [newline +:+ str_mul "=" 60; "📊 VERIFICATION SUMMARY"; str_mul "=" 60;
          "✅ Successful checks: " +:+ str_int (Z.of_nat (success_count (self w))) +:+ "/" +:+
          str_int (Z.of_nat (total_checks (self w))) +:+ " (" +:+
          format_fixed1 env (success_rate (self w)) +:+ "%)"] ++
         match warnings (self w) with
         | [] => []
         | _ :: _ =>
             ("⚠️  Warnings: " +:+ str_int (Z.of_nat (length (warnings (self w))))) ::
             map (fun warning => "   • " +:+ warning) (warnings (self w))
         end ++
         match errors (self w) with
         | [] => ["🎉 No errors found!"]
         | _ :: _ =>
             ("❌ Errors: " +:+ str_int (Z.of_nat (length (errors (self w))))) ::
             map (fun error => "   • " +:+ error) (errors (self w))
         end ++
         [newline +:+ str_mul "=" 60; verdict (success_rate (self w)); str_mul "=" 60] |}.
Proof.
  intros Hn. apply Nat.eqb_neq in Hn.
  unfold print_summary, bind, get_self, true_div, ret. run_prints.
  rewrite Hn. fold (success_rate (self w)).
  destruct (warnings (self w)) as [|wn wns]; destruct (errors (self w)) as [|er ers];
    run_prints; do 2 f_equal; cbn [map app]; rewrite <- ?app_assoc; reflexivity.
Qed.

Lemma print_summary_lists_witness :
  print_summary ready_env
    {| self := {| errors := ["Visualization (Matplotlib)"; "Network connectivity (PyPI)"];
                  warnings := []; success_count := 4; total_checks := 6 |};
       stdout := [] |} =
  Normal tt
    {| self := {| errors := ["Visualization (Matplotlib)"; "Network connectivity (PyPI)"];
                  warnings := []; success_count := 4; total_checks := 6 |};
       stdout := [newline +:+ str_mul "=" 60; "📊 VERIFICATION SUMMARY"; str_mul "=" 60;
                  "✅ Successful checks: 4/6 (" +:+
                  format_fixed1 ready_env ((4 # 6) * 100) +:+ "%)";
                  "❌ Errors: 2";
                  "   • Visualization (Matplotlib)";
                  "   • Network connectivity (PyPI)";
                  newline +:+ str_mul "=" 60; bottom_tier; str_mul "=" 60] |}.
Proof.
  rewrite print_summary_lists by (cbn; lia). reflexivity.
Defined.

(** ** Sequences of checks that leave the verifier alone *)

Lemma check_items_quiet_run (checks : list (string * M bool)) (w : world) :
  Forall (fun c => quiet (snd c)) checks ->
  match check_items checks w with
  | Normal results w' =>
      length results = length checks /\
      total_checks (self w') = total_checks (self w) + length checks /\
      success_count (self w') = success_count (self w) + length (List.filter id results) /\
      length (errors (self w')) =
        length (errors (self w)) + length (List.filter negb results) /\
      warnings (self w') = warnings (self w)
  | Raised e w' =>
      is_Exception e = false /\
      total_checks (self w') + success_count (self w) + length (errors (self w)) =
        total_checks (self w) + success_count (self w') + length (errors (self w')) + 1
  end.
Proof.
  intros Hq. revert w. induction Hq as [|[d f] rest Hf Hrest IH]; intros w.
  - cbn. repeat split; lia.
  - cbn [snd] in Hf. cbn [check_items]. unfold bind at 1.
    destruct (check_item d f w) as [b w1|e w1] eqn:Hitem.
    + destruct (check_item_outcome d f w w1 b Hf Hitem) as (o & Hb & He & Hs & Ht & Hw & _).
      assert (length (errors (self w1)) =
              length (errors (self w)) + (if b then 0 else 1)) as Hlen.
      { rewrite He, length_app, Hb. destruct o; cbn; lia. }
      rewrite <- Hb in Hs. specialize (IH w1). unfold bind.
      destruct (check_items rest w1) as [bs w2|e w2].
      * destruct IH as (Hl & Ht2 & Hs2 & He2 & Hw2). unfold ret.
        cbn [length List.filter]. destruct b; cbn [id negb length];
          repeat split; try lia; congruence.
      * destruct IH as [Hexn Hoff]. split; [exact Hexn|]. destruct b; lia.
    + destruct (check_item_raised d f w w1 e Hitem) as [He Hrun].
      pose proof (Hf {| self := counted (self w); stdout := stdout w |}) as Hself.
      rewrite Hrun in Hself. cbn [self] in Hself.
      split; [exact He|]. rewrite Hself. cbn. lia.
Qed.

(** X15.  The agreement of the counters along any sequence of checks that
    leave the verifier alone, whatever they print and however they end.
    When every call of [check_item] returns, the sequence has counted every
    check, has added the number of true results to [success_count] and one
    entry per false result to the error list, has left the warnings as they
    were, and [total_checks == success_count + len(errors)] still holds.
    When an exception that is no error ends the sequence, the check it came
    from has been counted but neither as a success nor as an error:
    [total_checks] is one ahead. *)
Theorem check_items_keep_agreement (checks : list (string * M bool)) (w : world) :
  Forall (fun c => quiet (snd c)) checks ->
  counts_agree (self w) ->
  match check_items checks w with
  | Normal results w' =>
      length results = length checks /\
      total_checks (self w') = total_checks (self w) + length checks /\
      success_count (self w') = success_count (self w) + length (List.filter id results) /\
      length (errors (self w')) =
        length (errors (self w)) + length (List.filter negb results) /\
      warnings (self w') = warnings (self w) /\
      counts_agree (self w')
  | Raised e w' =>
      is_Exception e = false /\
      total_checks (self w') = success_count (self w') + length (errors (self w')) + 1
  end.
Proof.
  intros Hq Hagree. unfold counts_agree in *.
  pose proof (check_items_quiet_run checks w Hq) as Hrun.
  destruct (check_items checks w) as [results w'|e w'].
  - destruct Hrun as (Hl & Ht & Hs & He & Hw).
    repeat (split; [assumption|]).
    assert (length (List.filter id results) + length (List.filter negb results) =
            length results) as Hsplit.
    { clear. induction results as [|[|] rest IH]; cbn; lia. }
    lia.
  - destruct Hrun as [He Hoff]. split; [exact He|]. lia.
Qed.

Lemma check_items_keep_agreement_witness :
  total_checks (self (final (check_items
     [("File write permissions", check_file_permissions ready_env);
      ("Network connectivity (PyPI)",
       check_network_connectivity (with_network (Raises KeyboardInterrupt) ready_env));
      ("AI Security simulation", run_security_simulation ready_env)] start))) =
  success_count (self (final (check_items
     [("File write permissions", check_file_permissions ready_env);
      ("Network connectivity (PyPI)",
       check_network_connectivity (with_network (Raises KeyboardInterrupt) ready_env));
      ("AI Security simulation", run_security_simulation ready_env)] start))) +
  length (errors (self (final (check_items
     [("File write permissions", check_file_permissions ready_env);
      ("Network connectivity (PyPI)",
       check_network_connectivity (with_network (Raises KeyboardInterrupt) ready_env));
      ("AI Security simulation", run_security_simulation ready_env)] start)))) + 1.
Proof.
  pose proof (check_items_keep_agreement
     [("File write permissions", check_file_permissions ready_env);
      ("Network connectivity (PyPI)",
       check_network_connectivity (with_network (Raises KeyboardInterrupt) ready_env));
      ("AI Security simulation", run_security_simulation ready_env)] start) as H.
  destruct (check_items _ start) as [results w'|e w'] eqn:Hrun.
  - vm_compute in Hrun. discriminate Hrun.
  - apply H.
    + constructor; [apply check_file_permissions_quiet|].
      constructor; [apply check_network_connectivity_quiet|].
      constructor; [apply run_security_simulation_quiet|constructor].
    + reflexivity.
Defined.

(** * What the result of a run depends on *)

Lemma same_tally_refl (w : world) : same_tally w w.
Proof. repeat split. Qed.

Lemma same_tally_self (w1 w2 u1 u2 : world) :
  self u1 = self w1 -> self u2 = self w2 -> same_tally w1 w2 -> same_tally u1 u2.
Proof. unfold same_tally. intros -> ->. exact (fun H => H). Qed.

Lemma simulates_bind {A B} (m1 m2 : M A) (k1 k2 : A -> M B) :
  simulates m1 m2 -> (forall a, simulates (k1 a) (k2 a)) ->
  simulates (bind m1 k1) (bind m2 k2).
Proof.
  intros Hm Hk w1 w2 Hsame. specialize (Hm w1 w2 Hsame). unfold bind.
  destruct (m1 w1) as [a1 u1|e1 u1], (m2 w2) as [a2 u2|e2 u2]; cbn in Hm; try contradiction.
  - destruct Hm as [<- Hu]. apply Hk. exact Hu.
  - exact Hm.
Qed.

(** Steps that always return and leave the tally alone can be skipped on
    both sides, whatever they return. *)
Lemma simulates_skip {A B C} (m1 : M A) (m2 : M B) (k1 k2 : M C) :
  passes_by m1 -> passes_by m2 -> simulates k1 k2 ->
  simulates (bind m1 (fun _ => k1)) (bind m2 (fun _ => k2)).
Proof.
  intros H1 H2 Hk w1 w2 Hsame. unfold bind.
  destruct (H1 w1) as (a1 & u1 & -> & Hu1). destruct (H2 w2) as (a2 & u2 & -> & Hu2).
  apply Hk. unfold same_tally in *. intuition congruence.
Qed.

Lemma quiet_passes_by {A} (m : M A) :
  quiet m -> (forall w, exists a w', m w = Normal a w') -> passes_by m.
Proof.
  intros Hq Hret w. destruct (Hret w) as (a & w' & Hrun). exists a, w'.
  split; [exact Hrun|]. specialize (Hq w). rewrite Hrun in Hq.
  unfold same_tally. rewrite Hq. repeat split.
Qed.

Lemma print_header_passes_by : passes_by print_header.
Proof. apply quiet_passes_by; [apply print_header_quiet|]. intros w. eexists. eexists. reflexivity. Qed.

Lemma print_section_passes_by (title : string) : passes_by (print_section title).
Proof.
  apply quiet_passes_by; [apply print_section_quiet|]. intros w. eexists. eexists. reflexivity.
Qed.

Lemma check_python_version_passes_by (env : Env) : passes_by (check_python_version env).
Proof.
  intros w. destruct (check_python_version_quiet env w) as (b & line & Hrun).
  eexists. eexists. split; [exact Hrun|]. repeat split.
Qed.

Lemma check_virtual_environment_passes_by (env : Env) :
  passes_by (check_virtual_environment env).
Proof.
  intros w. destruct (check_virtual_environment_yields env w) as (out & Hrun).
  eexists. eexists. split; [exact Hrun|].
  destruct (advised_frame env (self w)) as (He & Hs & Ht). repeat split; assumption.
Qed.

(** [check_item] treats two checks that end alike in the same way. *)
Lemma simulates_check_item (d : string) (f1 f2 : M bool) :
  simulates f1 f2 -> simulates (check_item d f1) (check_item d f2).
Proof.
  intros Hf w1 w2 Hsame.
  assert (same_tally {| self := counted (self w1); stdout := stdout w1 |}
                     {| self := counted (self w2); stdout := stdout w2 |}) as Hcounted.
  { destruct Hsame as (He & Hs & Ht). unfold same_tally. cbn. rewrite He, Hs, Ht.
    repeat split. }
  specialize (Hf _ _ Hcounted).
  destruct (f1 {| self := counted (self w1); stdout := stdout w1 |}) as [b1 u1|e1 u1] eqn:H1;
    destruct (f2 {| self := counted (self w2); stdout := stdout w2 |}) as [b2 u2|e2 u2] eqn:H2;
    cbn in Hf; try contradiction.
  - destruct Hf as [<- (He & Hs & Ht)]. destruct b1.
    + rewrite (check_item_returns_true d f1 w1 u1 H1), (check_item_returns_true d f2 w2 u2 H2).
      cbn. unfold same_tally. cbn. rewrite He, Hs, Ht. repeat split.
    + rewrite (check_item_returns_false d f1 w1 u1 H1),
              (check_item_returns_false d f2 w2 u2 H2).
      cbn. unfold same_tally. cbn. rewrite He, Hs, Ht. repeat split.
  - destruct Hf as [<- (He & Hs & Ht)].
    rewrite (check_item_raises d f1 w1 u1 e1 H1), (check_item_raises d f2 w2 u2 e1 H2).
    destruct (is_Exception e1); cbn; unfold same_tally; cbn; rewrite ?He, ?Hs, ?Ht;
      repeat split.
Qed.

(** The six checks on two machines with the same answers. *)
Lemma simulates_inert {A} (m1 m2 : M A) :
  (forall w1 w2, match m1 w1, m2 w2 with
                 | Normal a1 u1, Normal a2 u2 => a1 = a2 /\ self u1 = self w1 /\ self u2 = self w2
                 | Raised e1 u1, Raised e2 u2 => e1 = e2 /\ self u1 = self w1 /\ self u2 = self w2
                 | _, _ => False
                 end) ->
  simulates m1 m2.
Proof.
  intros H w1 w2 Hsame. specialize (H w1 w2). unfold alike.
  destruct (m1 w1) as [a1 u1|e1 u1], (m2 w2) as [a2 u2|e2 u2]; try contradiction;
    destruct H as (Ha & Hu1 & Hu2); (split; [exact Ha|]);
    exact (same_tally_self w1 w2 u1 u2 Hu1 Hu2 Hsame).
Qed.

Lemma simulates_check_file_permissions (env1 env2 : Env) :
  write_and_unlink env1 = write_and_unlink env2 ->
  simulates (check_file_permissions env1) (check_file_permissions env2).
Proof.
  intros Heq. apply simulates_inert. intros w1 w2.
  unfold check_file_permissions, try_except, bind. rewrite Heq.
  destruct (write_and_unlink env2) as [[]|e]; cbn; [auto|].
  destruct (is_Exception e); cbn; auto.
Qed.

Lemma simulates_check_data_manipulation (env1 env2 : Env) :
  mean_sum_is_number env1 = mean_sum_is_number env2 ->
  simulates (check_data_manipulation env1) (check_data_manipulation env2).
Proof.
  intros Heq. apply simulates_inert. intros w1 w2.
  unfold check_data_manipulation, try_except. rewrite Heq.
  destruct (mean_sum_is_number env2) as [b|e]; cbn; [auto|].
  destruct (is_Exception e); cbn; auto.
Qed.

Lemma simulates_check_visualization (env1 env2 : Env) :
  plot_offscreen env1 = plot_offscreen env2 ->
  simulates (check_visualization env1) (check_visualization env2).
Proof.
  intros Heq. apply simulates_inert. intros w1 w2.
  unfold check_visualization, try_except, bind. rewrite Heq.
  destruct (plot_offscreen env2) as [[]|e]; cbn; [auto|].
  destruct (is_Exception e); cbn; auto.
Qed.

Lemma simulates_check_network_connectivity (env1 env2 : Env) :
  requests_get_status env1 = requests_get_status env2 ->
  simulates (check_network_connectivity env1) (check_network_connectivity env2).
Proof.
  intros Heq. apply simulates_inert. intros w1 w2.
  unfold check_network_connectivity, try_except, bind. rewrite Heq.
  destruct (requests_get_status env2) as [status|e]; cbn; [auto|].
  destruct (is_Exception e); cbn; auto.
Qed.

Lemma simulates_run_security_simulation (env1 env2 : Env) :
  simulated_accuracy env1 = simulated_accuracy env2 ->
  simulates (run_security_simulation env1) (run_security_simulation env2).
Proof.
  intros Heq. apply simulates_inert. intros w1 w2.
  unfold run_security_simulation, try_except, bind. rewrite Heq.
  destruct (simulated_accuracy env2) as [accuracy|e]; cbn; [auto|].
  destruct (is_Exception e); cbn; auto.
Qed.

Lemma probe_packages_same (env1 env2 : Env) (packages : list string) :
  (forall name, In name packages -> import_module env1 name = import_module env2 name) ->
  forall missing found w1 w2,
    match probe_packages env1 packages missing found w1,
          probe_packages env2 packages missing found w2 with
    | Normal x1 u1, Normal x2 u2 => x1 = x2 /\ u1 = w1 /\ u2 = w2
    | Raised e1 u1, Raised e2 u2 => e1 = e2 /\ u1 = w1 /\ u2 = w2
    | _, _ => False
    end.
Proof.
  induction packages as [|name rest IH]; intros Himp missing found w1 w2.
  - cbn. auto.
  - cbn [probe_packages]. unfold bind, check_package_import, try_except, bind.
    rewrite (Himp name (or_introl eq_refl)).
    assert (forall name, In name rest -> import_module env1 name = import_module env2 name)
      as Hrest by (intros n Hn; apply Himp; right; exact Hn).
    destruct (import_module env2 name) as [m|e]; cbn -[truthy].
    + rewrite import_text_truthy. apply IH. exact Hrest.
    + destruct (is_ImportError e); cbn; [apply IH; exact Hrest|auto].
Qed.

Lemma simulates_check_packages (env1 env2 : Env) (packages : list string) :
  (forall name, In name packages -> import_module env1 name = import_module env2 name) ->
  simulates (check_packages env1 packages) (check_packages env2 packages).
Proof.
  intros Himp. apply simulates_inert. intros w1 w2.
  pose proof (probe_packages_same env1 env2 packages Himp [] [] w1 w2) as Hprobe.
  unfold check_packages, bind.
  destruct (probe_packages env1 packages [] [] w1) as [x1 u1|e1 u1],
           (probe_packages env2 packages [] [] w2) as [x2 u2|e2 u2]; try contradiction.
  - destruct Hprobe as (<- & -> & ->). rewrite !for_each_print. cbn. auto.
  - destruct Hprobe as (<- & -> & ->). auto.
Qed.

(** The summary ends the same way in two states with the same tally. *)
Lemma print_summary_undefined (env : Env) (w : world) :
  total_checks (self w) = 0 ->
  exists out,
    print_summary env w =
    Raised (Exception (ZeroDivisionError "division by zero")) {| self := self w; stdout := out |}.
Proof.
  intros Hz. unfold print_summary, bind, get_self, true_div. run_prints.
  rewrite Hz. eexists. reflexivity.
Qed.

Lemma simulates_print_summary (env1 env2 : Env) :
  simulates (print_summary env1) (print_summary env2).
Proof.
  intros w1 w2 Hsame. pose proof Hsame as (_ & _ & Ht).
  destruct (Nat.eq_dec (total_checks (self w1)) 0) as [Hz|Hnz].
  - destruct (print_summary_undefined env1 w1 Hz) as [out1 ->].
    destruct (print_summary_undefined env2 w2) as [out2 ->]; [congruence|].
    split; [reflexivity|]. exact Hsame.
  - destruct (print_summary_returns env1 w1 Hnz) as [before1 ->].
    destruct (print_summary_returns env2 w2) as [before2 ->]; [congruence|].
    split; [reflexivity|]. exact Hsame.
Qed.

Lemma simulates_run_all_checks (env1 env2 : Env) :
  same_probes env1 env2 -> simulates (run_all_checks env1) (run_all_checks env2).
Proof.
  intros (Hwrite & Himp & Hdata & Hplot & Hnet & Hsim & _). unfold run_all_checks.
  apply simulates_skip; [apply print_header_passes_by|apply print_header_passes_by|].
  apply simulates_skip; [apply print_section_passes_by|apply print_section_passes_by|].
  apply simulates_skip;
    [apply check_python_version_passes_by|apply check_python_version_passes_by|].
  apply simulates_skip;
    [apply check_virtual_environment_passes_by|apply check_virtual_environment_passes_by|].
  apply simulates_bind;
    [apply simulates_check_item, simulates_check_file_permissions, Hwrite|intros _].
  apply simulates_skip; [apply print_section_passes_by|apply print_section_passes_by|].
  apply simulates_bind;
    [apply simulates_check_item, simulates_check_packages, Himp|intros _].
  apply simulates_bind;
    [apply simulates_check_item, simulates_check_data_manipulation, Hdata|intros _].
  apply simulates_bind;
    [apply simulates_check_item, simulates_check_visualization, Hplot|intros _].
  apply simulates_skip; [apply print_section_passes_by|apply print_section_passes_by|].
  apply simulates_bind;
    [apply simulates_check_item, simulates_check_network_connectivity, Hnet|intros _].
  apply simulates_bind;
    [apply simulates_check_item, simulates_run_security_simulation, Hsim|intros _].
  apply simulates_bind; [apply simulates_print_summary|intros _].
  intros w1 w2 Hsame. unfold bind, get_self, ret. cbn.
  destruct Hsame as (He & Hs & Ht). rewrite He. repeat split; assumption.
Qed.

(** X17.  The result of a run depends on the answers of the six registered
    checks and of [os.getcwd] alone.  On two machines that give the same
    answers there, whatever their interpreter versions, environment
    variables and prefixes, a run from states with the same counters and
    the same error list ends the same way: with the same result, or the
    same exception, and again the same counters and error list; and the
    script exits with the same status. *)
Theorem run_depends_on_probes_only (env1 env2 : Env) :
  same_probes env1 env2 ->
  (forall w1 w2,
     same_tally w1 w2 -> alike (run_all_checks env1 w1) (run_all_checks env2 w2)) /\
  run_script env1 = run_script env2.
Proof.
  intros Hsame. pose proof (simulates_run_all_checks env1 env2 Hsame) as Hrun.
  split; [exact Hrun|].
  rewrite !run_script_cases. specialize (Hrun start start (same_tally_refl start)).
  destruct Hsame as (_ & _ & _ & _ & _ & _ & Hcwd). rewrite Hcwd.
  destruct (run_all_checks env1 start) as [s1 u1|e1 u1],
           (run_all_checks env2 start) as [s2 u2|e2 u2]; cbn in Hrun; try contradiction.
  - destruct Hrun as [<- _]. reflexivity.
  - destruct Hrun as [<- _]. reflexivity.
Qed.

Lemma run_depends_on_probes_only_witness :
  run_script (with_version (mkVersion 2 7 18) (without_venv ready_env)) = run_script ready_env.
Proof.
  destruct (run_depends_on_probes_only
              (with_version (mkVersion 2 7 18) (without_venv ready_env)) ready_env)
    as [_ Hexit].
  - repeat split; reflexivity.
  - exact Hexit.
Defined.
(** * Which check an error entry names *)

(** [check_item] returns true exactly when the check returned a true
    value. *)
Lemma check_item_value (d : string) (f : M bool) (w w' : world) (b : bool) :
  check_item d f w = Normal b w' ->
  (b = true <-> exists u, f {| self := counted (self w); stdout := stdout w |} = Normal true u).
Proof.
  intros H.
  destruct (f {| self := counted (self w); stdout := stdout w |}) as [[|] u|e u] eqn:Hf.
  - rewrite (check_item_returns_true d f w u Hf) in H. injection H as <- _.
    split; [intros _; exists u; reflexivity|reflexivity].
  - rewrite (check_item_returns_false d f w u Hf) in H. injection H as <- _.
    split; [discriminate|]. intros [u' Hu]. discriminate Hu.
  - rewrite (check_item_raises d f w u e Hf) in H.
    destruct (is_Exception e); [|discriminate]. injection H as <- _.
    split; [discriminate|]. intros [u' Hu]. discriminate Hu.
Qed.

(** When each of the six checks returns a true value. *)
Lemma check_file_permissions_true (env : Env) (w : world) :
  (exists u, check_file_permissions env w = Normal true u) <->
  write_and_unlink env = Returns tt.
Proof.
  unfold check_file_permissions, try_except, bind.
  destruct (write_and_unlink env) as [[]|e]; cbn.
  - split; [reflexivity|]. intros _. eexists. reflexivity.
  - destruct (is_Exception e); cbn; (split; [intros [u Hu]; discriminate Hu|discriminate]).
Qed.

Lemma check_data_manipulation_true (env : Env) (w : world) :
  (exists u, check_data_manipulation env w = Normal true u) <->
  mean_sum_is_number env = Returns true.
Proof.
  unfold check_data_manipulation, try_except.
  destruct (mean_sum_is_number env) as [[|]|e]; cbn.
  - split; [reflexivity|]. intros _. eexists. reflexivity.
  - split; [intros [u Hu]; discriminate Hu|discriminate].
  - destruct (is_Exception e); cbn; (split; [intros [u Hu]; discriminate Hu|discriminate]).
Qed.

Lemma check_visualization_true (env : Env) (w : world) :
  (exists u, check_visualization env w = Normal true u) <->
  plot_offscreen env = Returns tt.
Proof.
  unfold check_visualization, try_except, bind.
  destruct (plot_offscreen env) as [[]|e]; cbn.
  - split; [reflexivity|]. intros _. eexists. reflexivity.
  - destruct (is_Exception e); cbn; (split; [intros [u Hu]; discriminate Hu|discriminate]).
Qed.

Lemma check_network_connectivity_true (env : Env) (w : world) :
  (exists u, check_network_connectivity env w = Normal true u) <->
  requests_get_status env = Returns 200%Z.
Proof.
  unfold check_network_connectivity, try_except, bind.
  destruct (requests_get_status env) as [status|e]; cbn.
  - destruct (status =? 200)%Z eqn:Hs.
    + apply Z.eqb_eq in Hs. subst status. split; [reflexivity|]. intros _. eexists. reflexivity.
    + apply Z.eqb_neq in Hs. split; [intros [u Hu]; discriminate Hu|].
      intros H. injection H as ->. destruct Hs. reflexivity.
  - destruct (is_Exception e); cbn; (split; [intros [u Hu]; discriminate Hu|discriminate]).
Qed.

Lemma run_security_simulation_true (env : Env) (w : world) :
  (exists u, run_security_simulation env w = Normal true u) <->
  exists accuracy, simulated_accuracy env = Returns accuracy /\ (7 # 10 < accuracy)%Q.
Proof.
  unfold run_security_simulation, try_except, bind.
  destruct (simulated_accuracy env) as [accuracy|e]; cbn.
  - destruct (Qle_bool accuracy (7 # 10)) eqn:Hle; cbn.
    + apply Qle_bool_iff in Hle. split; [intros [u Hu]; discriminate Hu|].
      intros (a & Ha & Hlt). injection Ha as <-. destruct (Qlt_not_le _ _ Hlt Hle).
    + split; [|intros _; eexists; reflexivity].
      intros _. exists accuracy. split; [reflexivity|]. apply Qnot_le_lt. intros Hle'.
      apply Qle_bool_iff in Hle'. rewrite Hle' in Hle. discriminate.
  - destruct (is_Exception e); cbn;
      (split; [intros [u Hu]; discriminate Hu|intros (a & Ha & _); discriminate Ha]).
Qed.

Lemma probe_packages_none_missing (env : Env) (packages missing found : list string)
    (w w' : world) (lists : list string * list string) :
  probe_packages env packages missing found w = Normal lists w' ->
  fst lists = [] ->
  forall name, In name packages -> exists m, import_module env name = Returns m.
Proof.
  revert missing found. induction packages as [|name rest IH]; intros missing found H Hnone.
  - intros n [].
  - cbn [probe_packages] in H. unfold bind, check_package_import, try_except, bind in H.
    destruct (import_module env name) as [m|e] eqn:Himp; cbn -[truthy] in H.
    + rewrite import_text_truthy in H. intros n [<-|Hn].
      * exists m. exact Himp.
      * exact (IH _ _ H Hnone n Hn).
    + destruct (is_ImportError e); cbn in H; [|discriminate H].
      exfalso. clear IH Himp.
      assert (forall l mi fo, probe_packages env l mi fo w = Normal lists w' ->
                              exists more, fst lists = mi ++ more) as Hgrow.
      { clear. induction l as [|n l IH]; intros mi fo H.
        - injection H as <- _. exists []. symmetry. apply app_nil_r.
        - cbn [probe_packages] in H. unfold bind in H.
          pose proof (check_package_import_world env n w) as Hw.
          destruct (check_package_import env n w) as [[text|] w1|e w1]; subst; [| |discriminate H].
          + destruct (truthy (Some text)).
            * exact (IH _ _ H).
            * destruct (IH _ _ H) as [more Hmore]. exists (n :: more).
              rewrite Hmore, <- app_assoc. reflexivity.
          + destruct (IH _ _ H) as [more Hmore]. exists (n :: more).
            rewrite Hmore, <- app_assoc. reflexivity. }
      destruct (Hgrow _ _ _ H) as [more Hmore]. rewrite Hnone in Hmore.
      destruct missing; discriminate Hmore.
Qed.

Lemma check_essential_packages_true (env : Env) (w : world) :
  (exists u, check_essential_packages env w = Normal true u) <->
  forall name, In name essential_packages -> exists m, import_module env name = Returns m.
Proof.
  split.
  - intros [u Hu]. unfold check_essential_packages, check_packages in Hu.
    apply bind_normal in Hu. destruct Hu as (lists & w1 & Hprobe & Hrest).
    unfold bind in Hrest. rewrite !for_each_print in Hrest. injection Hrest as Hlen _.
    apply (probe_packages_none_missing env essential_packages [] [] w w1 lists Hprobe).
    destruct (fst lists); [reflexivity|discriminate Hlen].
  - intros Himp.
    set (installed := fun name =>
           match import_module env name with
           | Returns m => Some m
           | Raises _ => None
           end).
    assert (forallb (resolves installed) essential_packages = true) as Hall.
    { apply forallb_forall. intros name Hname.
      destruct (Himp name Hname) as [m Hm]. unfold resolves, installed.
      rewrite Hm. reflexivity. }
    eexists. unfold check_essential_packages.
    rewrite (check_packages_of env installed essential_packages w).
    + rewrite Hall. reflexivity.
    + intros name Hname. destruct (Himp name Hname) as [m Hm].
      unfold importlib_of, installed. rewrite Hm. reflexivity.
Qed.

(** An entry begins like the description it was made from. *)
Lemma error_entry_initial (c : Ascii.ascii) (d x : string) (o : fixed_outcome) :
  In x (error_entry (String c d, o)) -> String.get 0 x = Some c.
Proof.
  destruct o; cbn; intros H; try contradiction; destruct H as [<-|[]]; reflexivity.
Qed.

Lemma error_entry_own (d : string) (o : fixed_outcome) :
  (forall e, o <> raising e) ->
  (In d (error_entry (d, o)) <-> passed (d, o) = false).
Proof.
  intros Hno. destruct o as [| |e]; cbn.
  - split; [contradiction|discriminate].
  - split; [reflexivity|]. intros _. left. reflexivity.
  - destruct (Hno e eq_refl).
Qed.
(** X18.  After a run from a fresh verifier the error list names the checks
    that failed, each for its own reason.  The description of the file
    check is in the list exactly when the test file could not be written
    and removed; that of the data check exactly when the computation did
    not give a number; that of the plotting check exactly when the plot
    could not be made; that of the network check exactly when the request
    did not return status 200; that of the simulation exactly when no
    accuracy above 0.7 was computed; and the list has an entry for the
    package check, bare or with a message, exactly when some required
    package could not be imported. *)
Theorem errors_name_failed_checks (env : Env) (success : bool) (w' : world) :
  run_all_checks env start = Normal success w' ->
  (In "File write permissions" (errors (self w')) <->
   write_and_unlink env <> Returns tt) /\
  ((In "Essential packages installed" (errors (self w')) \/
    exists msg, In ("Essential packages installed - " +:+ msg) (errors (self w'))) <->
   ~ (forall name, In name essential_packages ->
        exists m, import_module env name = Returns m)) /\
  (In "Data manipulation (NumPy/Pandas)" (errors (self w')) <->
   mean_sum_is_number env <> Returns true) /\
  (In "Visualization (Matplotlib)" (errors (self w')) <->
   plot_offscreen env <> Returns tt) /\
  (In "Network connectivity (PyPI)" (errors (self w')) <->
   requests_get_status env <> Returns 200%Z) /\
  (In "AI Security simulation" (errors (self w')) <->
   ~ (exists accuracy, simulated_accuracy env = Returns accuracy /\ (7 # 10 < accuracy)%Q)).
Proof.
  intros H. apply run_all_checks_steps in H.
  destruct H as (b1 & b2 & b3 & b4 & b5 & b6 & w1 & w2 & w2' & w3 & w4 & w5 & w5' & w6 & w7 &
                 H0 & H1 & E2 & H2 & H3 & H4 & E5 & H5 & H6 & Hsum & _).
  pose proof (proj1 (check_item_value _ _ _ _ _ H1)) as V1.
  pose proof (proj1 (check_item_value _ _ _ _ _ H2)) as V2.
  pose proof (proj1 (check_item_value _ _ _ _ _ H3)) as V3.
  pose proof (proj1 (check_item_value _ _ _ _ _ H4)) as V4.
  pose proof (proj1 (check_item_value _ _ _ _ _ H5)) as V5.
  pose proof (proj1 (check_item_value _ _ _ _ _ H6)) as V6.
  pose proof (proj2 (check_item_value _ _ _ _ _ H1)) as U1.
  pose proof (proj2 (check_item_value _ _ _ _ _ H2)) as U2.
  pose proof (proj2 (check_item_value _ _ _ _ _ H3)) as U3.
  pose proof (proj2 (check_item_value _ _ _ _ _ H4)) as U4.
  pose proof (proj2 (check_item_value _ _ _ _ _ H5)) as U5.
  pose proof (proj2 (check_item_value _ _ _ _ _ H6)) as U6.
  rewrite check_file_permissions_true in V1, U1.
  rewrite check_essential_packages_true in V2, U2.
  rewrite check_data_manipulation_true in V3, U3.
  rewrite check_visualization_true in V4, U4.
  rewrite check_network_connectivity_true in V5, U5.
  rewrite run_security_simulation_true in V6, U6.
  apply check_item_outcome in H1; [|apply check_file_permissions_quiet].
  apply check_item_outcome in H2; [|apply check_packages_quiet].
  apply check_item_outcome in H3; [|apply check_data_manipulation_quiet].
  apply check_item_outcome in H4; [|apply check_visualization_quiet].
  apply check_item_outcome in H5; [|apply check_network_connectivity_quiet].
  apply check_item_outcome in H6; [|apply run_security_simulation_quiet].
  destruct H1 as (o1 & B1 & He1 & _ & _ & _ & N1).
  destruct H2 as (o2 & B2 & He2 & _ & _ & _ & _).
  destruct H3 as (o3 & B3 & He3 & _ & _ & _ & N3).
  destruct H4 as (o4 & B4 & He4 & _ & _ & _ & N4).
  destruct H5 as (o5 & B5 & He5 & _ & _ & _ & N5).
  destruct H6 as (o6 & B6 & He6 & _ & _ & _ & N6).
  specialize (N1 (check_file_permissions_swallows env)).
  specialize (N3 (check_data_manipulation_swallows env)).
  specialize (N4 (check_visualization_swallows env)).
  specialize (N5 (check_network_connectivity_swallows env)).
  specialize (N6 (run_security_simulation_swallows env)).
  pose proof (print_summary_quiet env w7) as Hq. rewrite Hsum in Hq.
  assert (errors (self w') =
          error_entry ("File write permissions", o1) ++
          error_entry ("Essential packages installed", o2) ++
          error_entry ("Data manipulation (NumPy/Pandas)", o3) ++
          error_entry ("Visualization (Matplotlib)", o4) ++
          error_entry ("Network connectivity (PyPI)", o5) ++
          error_entry ("AI Security simulation", o6)) as ->.
  { rewrite Hq, He6, He5, E5, He4, He3, He2, E2, He1, H0.
    destruct (advised_frame env (self start)) as (-> & _).
    cbn [errors self start init app]. rewrite <- !app_assoc. reflexivity. }
  rewrite !in_app_iff.
  split; [|split; [|split; [|split; [|split]]]].
  - split.
    + intros [Hin|[Hin|[Hin|[Hin|[Hin|Hin]]]]];
        try (apply error_entry_initial in Hin; cbn in Hin; discriminate Hin).
      apply (error_entry_own _ _ N1) in Hin. intros Hok.
      rewrite <- B1, (U1 Hok) in Hin. discriminate Hin.
    + intros Hbad. left. apply (error_entry_own _ _ N1). rewrite <- B1.
      destruct b1; [destruct (Hbad (V1 eq_refl))|reflexivity].
  - split.
    + intros Hin Hok. specialize (U2 Hok). rewrite U2 in B2.
      assert (forall x, String.get 0 x = String.get 0 "Essential packages installed" ->
                (In x (error_entry ("File write permissions", o1)) \/
                 In x (error_entry ("Essential packages installed", o2)) \/
                 In x (error_entry ("Data manipulation (NumPy/Pandas)", o3)) \/
                 In x (error_entry ("Visualization (Matplotlib)", o4)) \/
                 In x (error_entry ("Network connectivity (PyPI)", o5)) \/
                 In x (error_entry ("AI Security simulation", o6))) -> False) as Hnone.
      { intros x Hx [Hx1|[Hx2|[Hx3|[Hx4|[Hx5|Hx6]]]]];
          try (match goal with Hi : In x _ |- _ =>
                 apply error_entry_initial in Hi; rewrite Hx in Hi; cbn in Hi; discriminate Hi end).
        destruct o2; cbn in B2, Hx2; [contradiction|discriminate B2|discriminate B2]. }
      destruct Hin as [Hin|[msg Hin]].
      * exact (Hnone _ eq_refl Hin).
      * rewrite !in_app_iff in Hin.
        exact (Hnone ("Essential packages installed - " +:+ msg) eq_refl Hin).
    + intros Hbad. destruct o2 as [| |e].
      * destruct Hbad. apply V2. exact B2.
      * left. right. left. left. reflexivity.
      * right. exists (str (Exception e)). rewrite !in_app_iff.
        right. left. left. reflexivity.
  - split.
    + intros [Hin|[Hin|[Hin|[Hin|[Hin|Hin]]]]];
        try (apply error_entry_initial in Hin; cbn in Hin; discriminate Hin).
      apply (error_entry_own _ _ N3) in Hin. intros Hok.
      rewrite <- B3, (U3 Hok) in Hin. discriminate Hin.
    + intros Hbad. right. right. left. apply (error_entry_own _ _ N3). rewrite <- B3.
      destruct b3; [destruct (Hbad (V3 eq_refl))|reflexivity].
  - split.
    + intros [Hin|[Hin|[Hin|[Hin|[Hin|Hin]]]]];
        try (apply error_entry_initial in Hin; cbn in Hin; discriminate Hin).
      apply (error_entry_own _ _ N4) in Hin. intros Hok.
      rewrite <- B4, (U4 Hok) in Hin. discriminate Hin.
    + intros Hbad. right. right. right. left. apply (error_entry_own _ _ N4). rewrite <- B4.
      destruct b4; [destruct (Hbad (V4 eq_refl))|reflexivity].
  - split.
    + intros [Hin|[Hin|[Hin|[Hin|[Hin|Hin]]]]];
        try (apply error_entry_initial in Hin; cbn in Hin; discriminate Hin).
      apply (error_entry_own _ _ N5) in Hin. intros Hok.
      rewrite <- B5, (U5 Hok) in Hin. discriminate Hin.
    + intros Hbad. right. right. right. right. left.
      apply (error_entry_own _ _ N5). rewrite <- B5.
      destruct b5; [destruct (Hbad (V5 eq_refl))|reflexivity].
  - split.
    + intros [Hin|[Hin|[Hin|[Hin|[Hin|Hin]]]]];
        try (apply error_entry_initial in Hin; cbn in Hin; discriminate Hin).
      apply (error_entry_own _ _ N6) in Hin. intros Hok.
      rewrite <- B6, (U6 Hok) in Hin. discriminate Hin.
    + intros Hbad. right. right. right. right. right.
      apply (error_entry_own _ _ N6). rewrite <- B6.
      destruct b6; [destruct (Hbad (V6 eq_refl))|reflexivity].
Qed.

Lemma errors_name_failed_checks_witness :
  In "Network connectivity (PyPI)"
     (errors (self (final (run_all_checks (with_network (Returns 503%Z) ready_env) start)))).
Proof.
  apply (proj1 (proj2 (proj2 (proj2 (proj2
           (errors_name_failed_checks (with_network (Returns 503%Z) ready_env) false
              (final (run_all_checks (with_network (Returns 503%Z) ready_env) start))
              ltac:(vm_compute; reflexivity))))))).
  discriminate.
Defined.
